(** * DeepSVDD (pyod/models/deep_svdd.py): a shallow embedding

    The estimator object is a record whose fitted attributes are optional
    (an attribute that was never assigned is [None]); methods are
    computations in a state-and-exception monad in which an exception
    leaves the assignments made so far in place, as a Python object does.
    NumPy / Keras / scikit-learn are reached through the [Backend]
    interface; every call to them is recorded in a trace. *)

From Stdlib Require Import String.
From Stdlib Require Import ZArith List Bool Lia.
From Stdlib Require Import Floats.SpecFloat.
Import ListNotations.

Set Implicit Arguments.

(** ** Floating-point scalars

    Array entries are IEEE-754 values: signed zeros, infinities, NaN and
    finite numbers [(-1)^s * m * 2^e].  Comparison, [abs] and negation
    are exact operations, so they are independent of the precision. *)

Module Float.

Definition t := spec_float.

Definition zero : t := S754_zero false.
Definition neg_zero : t := S754_zero true.
Definition nan : t := S754_nan.

(** binary32 constants, the dtype of a Keras prediction, in canonical
    form (24-bit significand): 0.1 is 13421773 * 2^-27 = 0x3DCCCCCD *)
Definition tenth : t := S754_finite false 13421773 (-27).
Definition twentieth : t := S754_finite false 13421773 (-28).
Definition half : t := S754_finite false 8388608 (-24).
Definition quarter : t := S754_finite false 8388608 (-25).
Definition one : t := S754_finite false 8388608 (-23).
Definition two : t := S754_finite false 8388608 (-22).
Definition three : t := S754_finite false 12582912 (-22).

(** binary64 constants, the Python [float] of a keyword argument
    (53-bit significand) *)
Definition one64 : t := S754_finite false 4503599627370496 (-52).
Definition half64 : t := S754_finite false 4503599627370496 (-53).
Definition tenth64 : t := S754_finite false 7205759403792794 (-56).
Definition fifth64 : t := S754_finite false 7205759403792794 (-55).

Definition abs : t -> t := SFabs.
Definition opp : t -> t := SFopp.
Definition ltb : t -> t -> bool := SFltb.
Definition leb : t -> t -> bool := SFleb.
Definition gtb (x y : t) : bool := SFltb y x.
Definition geb (x y : t) : bool := SFleb y x.

Definition is_zero (x : t) : bool :=
  match x with S754_zero _ => true | _ => false end.

Definition is_nan (x : t) : bool :=
  match x with S754_nan => true | _ => false end.

End Float.

(** ** NumPy boolean-mask assignment

    [a[mask] = v] with a scalar [v]: every entry selected by the mask is
    replaced by [v], the others stay.  The mask is computed entry-wise
    from the array as it is when the statement runs. *)

Definition mask_assign (mask : Float.t -> bool) (v : Float.t)
  (a : list Float.t) : list Float.t :=
  map (fun x => if mask x then v else x) a.

(** ** Center clamping (the last three statements of [_init_c])

<<
    self.c[(abs(self.c) < eps) & (self.c < 0)] = -eps
    self.c[(abs(self.c) < eps) & (self.c > 0)] = eps
>>
    The second statement reads the array written by the first. *)

Definition neg_mask (eps x : Float.t) : bool :=
  Float.ltb (Float.abs x) eps && Float.ltb x Float.zero.

Definition pos_mask (eps x : Float.t) : bool :=
  Float.ltb (Float.abs x) eps && Float.gtb x Float.zero.

Definition clamp_c (eps : Float.t) (c : list Float.t) : list Float.t :=
  let c1 := mask_assign (neg_mask eps) (Float.opp eps) c in
  mask_assign (pos_mask eps) eps c1.

(** What the two statements do to one coordinate. *)
Definition clamp_coord (eps x : Float.t) : Float.t :=
  let x1 := if neg_mask eps x then Float.opp eps else x in
  if pos_mask eps x1 then eps else x1.

(** The default [eps=0.1] of [_init_c]. *)
Definition eps_default : Float.t := Float.tenth.

(** ** Arrays *)

Definition row := list Float.t.

(** A 2-D array, row-major. *)
Definition matrix := list row.

(** [X.shape[0]] and [X.shape[1]] *)
Definition shape0 (X : matrix) : Z := Z.of_nat (length X).
Definition shape1 (X : matrix) : Z := Z.of_nat (length (hd [] X)).

(** [np.min] of a Python list of integers; a zero-size argument raises
    [ValueError]. *)
Definition np_min (l : list Z) : option Z :=
  match l with
  | [] => None
  | x :: l' => Some (fold_left Z.min l' x)
  end.

(** The center [self.c]: the scalar placeholder [0.0] (or a scalar given
    by the caller) or an array. *)
Inductive center :=
| C_scalar (x : Float.t)
| C_array (v : list Float.t).

(** ** The network description handed to Keras *)

Inductive layer :=
| Dense (units : Z) (activation : string) (l2 : Float.t)
        (name : option string)
| Dropout (rate : Float.t).

(** What [_build_model] assembles before [compile]: the encoder chain up
    to the layer named [net_output], the center of the distance loss,
    and, with [use_ae], the decoder chain whose reconstruction error is
    added to the loss. *)
Record network := {
  net_inputs : Z;
  net_encoder : list layer;
  net_center : center;
  net_decoder : option (list layer);
  net_optimizer : string
}.

(** ** Exceptions *)

Inductive exn :=
| ValueError_contamination     (* BaseDetector.__init__ *)
| ValueError_check_parameter   (* check_parameter(dropout_rate, ...) *)
| ValueError_check_array       (* sklearn check_array *)
| ValueError_transform         (* StandardScaler.transform, wrong width *)
| ValueError_np_min            (* np.min of an empty list *)
| ValueError_neurons           (* "The number of neurons should not exceed
                                   the number of features" *)
| IndexError                   (* hidden_neurons_[0] of an empty list *)
| AttributeError               (* reading an attribute never assigned *)
| NotFittedError               (* check_is_fitted *)
| KerasError.                  (* raised while building or training *)

(** ** Calls that leave this module *)

Inductive event :=
| Ev_set_seed (seed : Z)
| Ev_check_array (X : matrix)
| Ev_scaler_fit (X : matrix)
| Ev_scaler_transform (X : matrix)
| Ev_shuffle (X : matrix)
| Ev_build (net : network)
| Ev_summary
| Ev_embed (X : matrix)
| Ev_train (X : matrix)
| Ev_predict (X : matrix).

Definition is_build (e : event) : bool :=
  match e with Ev_build _ => true | _ => false end.

Definition is_embed (e : event) : bool :=
  match e with Ev_embed _ => true | _ => false end.

(** Standardization or a forward pass. *)
Definition is_compute (e : event) : bool :=
  match e with
  | Ev_scaler_fit _ | Ev_scaler_transform _ | Ev_embed _
  | Ev_train _ | Ev_predict _ | Ev_build _ | Ev_check_array _ => true
  | _ => false
  end.

(** ** State and exceptions

    [run m s] returns the outcome together with the state reached: an
    exception does not undo the assignments made before it. *)

Definition M (S A : Type) : Type := S -> (exn + A) * S.

Definition ret {S A} (a : A) : M S A := fun s => (inr a, s).

Definition bind {S A B} (m : M S A) (k : A -> M S B) : M S B :=
  fun s => match m s with
           | (inl e, s') => (inl e, s')
           | (inr a, s') => k a s'
           end.

Definition raise {S A} (e : exn) : M S A := fun s => (inl e, s).

Definition gets {S A} (f : S -> A) : M S A := fun s => (inr (f s), s).

Definition modify {S} (f : S -> S) : M S unit := fun s => (inr tt, f s).

Definition when {S} (b : bool) (m : M S unit) : M S unit :=
  if b then m else ret tt.

Declare Scope monad_scope.
Delimit Scope monad_scope with monad.
Notation "x <- m ;; k" := (bind m (fun x => k))
  (at level 61, m at next level, right associativity) : monad_scope.
Notation "m ;; k" := (bind m (fun _ => k))
  (at level 61, right associativity) : monad_scope.
Open Scope monad_scope.

(** [option] results of library calls: [None] raises. *)
Definition or_raise {S A} (e : exn) (o : option A) : M S A :=
  match o with Some a => ret a | None => raise e end.

(** [mapM] on [option], for a row-wise operation that may reject a row. *)
Fixpoint traverse {A B} (f : A -> option B) (l : list A) : option (list B) :=
  match l with
  | [] => Some []
  | a :: l' =>
      match f a, traverse f l' with
      | Some b, Some bs => Some (b :: bs)
      | _, _ => None
      end
  end.

(** ** The libraries behind the estimator

    scikit-learn's validator and scaler, NumPy's generator and
    reductions, Keras' models and the [BaseDetector] parent class are not
    part of this module.  Their types and operations are the fields of
    [Backend]; generator states are passed explicitly. *)

Definition labels := list Z.

(** Keyword arguments of Keras' [Model.fit], as [fit] passes them. *)
Record fit_args (Callback : Type) := {
  fa_epochs : Z;
  fa_batch_size : Z;
  fa_shuffle : bool;
  fa_callbacks : option (list Callback);
  fa_validation_split : option Float.t;
  fa_validation_data : option (matrix * labels);
  fa_verbose : Z
}.

Class Backend := {
  Base : Type;       (* BaseDetector: contamination, _classes, threshold_,
                        labels_ *)
  Scaler : Type;     (* a fitted StandardScaler *)
  Model : Type;      (* a compiled Keras model with its weights *)
  History : Type;
  Callback : Type;
  np_rng : Type;     (* NumPy's global generator *)
  tf_rng : Type;     (* TensorFlow's global seed *)
  base_init : Float.t -> option Base;
  set_n_classes : Base -> Base;
  process_decision_scores : Base -> list Float.t -> Base;
  check_array : matrix -> option matrix;
  scaler_fit : matrix -> Scaler;
  scale_row : Scaler -> row -> option row;
  np_shuffle : np_rng -> matrix -> matrix * np_rng;
  np_sum_axis0 : matrix -> row;
  np_divide : row -> Z -> row;
  tf_set_seed : Z -> tf_rng;
  keras_compile : network -> np_rng * tf_rng ->
                  option Model * (np_rng * tf_rng);
  keras_embed : Model -> row -> row;        (* output of 'net_output' *)
  keras_forward : Model -> row -> Float.t;  (* the declared output, dist *)
  keras_fit : Model -> matrix -> matrix -> fit_args Callback ->
              np_rng * tf_rng ->
              option (Model * History) * (np_rng * tf_rng)
}.

(** Modelled from the spec: [check_parameter] of [pyod.utils.utility] is
    not among the sources; it is the "parameter-range checker: given a
    value and inclusive/exclusive bounds, fails with a configuration
    error if out of range". *)
Definition in_range (param low high : Float.t)
  (include_left include_right : bool) : bool :=
  (if include_left then Float.leb low param else Float.ltb low param) &&
  (if include_right then Float.leb param high else Float.ltb param high).

Definition check_parameter {S} (param low high : Float.t)
  (include_left include_right : bool) : M S unit :=
  if in_range param low high include_left include_right
  then ret tt else raise ValueError_check_parameter.

Section Estimator.

Context {B : Backend}.

(** ** The object *)

(** Attributes assigned by [__init__] and never again. *)
Record params := {
  use_ae : bool;
  hidden_neurons : list Z;
  hidden_neurons_ : list Z;
  hidden_activation : string;
  output_activation : string;
  optimizer : string;
  epochs : Z;
  batch_size : Z;
  callbacks : option (list Callback);
  dropout_rate : Float.t;
  l2_regularizer : Float.t;
  validation_size : option Float.t;
  preprocessing : bool;
  verbose : Z;
  random_state : option Z
}.

(** The attributes that [fit] assigns; [None] is an attribute that does
    not exist yet ([c] and [validation_data]: the Python value [None]). *)
Record DeepSVDD := {
  hp : params;
  base : Base;
  c : option center;
  validation_data : option (matrix * labels);
  n_samples_ : option Z;
  n_features_ : option Z;
  scaler_ : option Scaler;
  model_ : option Model;
  history_ : option History;
  decision_scores_ : option (list Float.t)
}.

Definition set_base (v : Base) (o : DeepSVDD) : DeepSVDD :=
  {| hp := hp o; base := v; c := c o;
     validation_data := validation_data o; n_samples_ := n_samples_ o;
     n_features_ := n_features_ o; scaler_ := scaler_ o;
     model_ := model_ o; history_ := history_ o;
     decision_scores_ := decision_scores_ o |}.

Definition set_c (v : option center) (o : DeepSVDD) : DeepSVDD :=
  {| hp := hp o; base := base o; c := v;
     validation_data := validation_data o; n_samples_ := n_samples_ o;
     n_features_ := n_features_ o; scaler_ := scaler_ o;
     model_ := model_ o; history_ := history_ o;
     decision_scores_ := decision_scores_ o |}.

Definition set_validation_data (v : option (matrix * labels))
  (o : DeepSVDD) : DeepSVDD :=
  {| hp := hp o; base := base o; c := c o;
     validation_data := v; n_samples_ := n_samples_ o;
     n_features_ := n_features_ o; scaler_ := scaler_ o;
     model_ := model_ o; history_ := history_ o;
     decision_scores_ := decision_scores_ o |}.

Definition set_n_samples_ (v : Z) (o : DeepSVDD) : DeepSVDD :=
  {| hp := hp o; base := base o; c := c o;
     validation_data := validation_data o; n_samples_ := Some v;
     n_features_ := n_features_ o; scaler_ := scaler_ o;
     model_ := model_ o; history_ := history_ o;
     decision_scores_ := decision_scores_ o |}.

Definition set_n_features_ (v : Z) (o : DeepSVDD) : DeepSVDD :=
  {| hp := hp o; base := base o; c := c o;
     validation_data := validation_data o; n_samples_ := n_samples_ o;
     n_features_ := Some v; scaler_ := scaler_ o;
     model_ := model_ o; history_ := history_ o;
     decision_scores_ := decision_scores_ o |}.

Definition set_scaler_ (v : Scaler) (o : DeepSVDD) : DeepSVDD :=
  {| hp := hp o; base := base o; c := c o;
     validation_data := validation_data o; n_samples_ := n_samples_ o;
     n_features_ := n_features_ o; scaler_ := Some v;
     model_ := model_ o; history_ := history_ o;
     decision_scores_ := decision_scores_ o |}.

Definition set_model_ (v : Model) (o : DeepSVDD) : DeepSVDD :=
  {| hp := hp o; base := base o; c := c o;
     validation_data := validation_data o; n_samples_ := n_samples_ o;
     n_features_ := n_features_ o; scaler_ := scaler_ o;
     model_ := Some v; history_ := history_ o;
     decision_scores_ := decision_scores_ o |}.

Definition set_history_ (v : History) (o : DeepSVDD) : DeepSVDD :=
  {| hp := hp o; base := base o; c := c o;
     validation_data := validation_data o; n_samples_ := n_samples_ o;
     n_features_ := n_features_ o; scaler_ := scaler_ o;
     model_ := model_ o; history_ := Some v;
     decision_scores_ := decision_scores_ o |}.

Definition set_decision_scores_ (v : list Float.t) (o : DeepSVDD)
  : DeepSVDD :=
  {| hp := hp o; base := base o; c := c o;
     validation_data := validation_data o; n_samples_ := n_samples_ o;
     n_features_ := n_features_ o; scaler_ := scaler_ o;
     model_ := model_ o; history_ := history_ o;
     decision_scores_ := Some v |}.

(** ** The process around the object: both generators and the trace of
    library calls (oldest first) *)

Record env := {
  np_state : np_rng;
  tf_state : tf_rng;
  trace : list event
}.

Record world := {
  self : DeepSVDD;
  genv : env
}.

Definition emit_env (e : event) : M env unit :=
  modify (fun g => {| np_state := np_state g; tf_state := tf_state g;
                      trace := trace g ++ [e] |}).

Definition on_env {A} (m : M env A) : M world A :=
  fun w => let (r, g) := m (genv w) in (r, {| self := self w; genv := g |}).

Definition emit (e : event) : M world unit := on_env (emit_env e).

Definition update (f : DeepSVDD -> DeepSVDD) : M world unit :=
  modify (fun w => {| self := f (self w); genv := genv w |}).

Definition field {A} (f : DeepSVDD -> A) : M world A :=
  gets (fun w => f (self w)).

(** Reading an attribute that [fit] assigns. *)
Definition attr {A} (f : DeepSVDD -> option A) : M world A :=
  v <- field f ;; or_raise AttributeError v.

(** Both generators at once, for the Keras calls. *)
Definition with_rngs {A} (f : np_rng * tf_rng -> option A * (np_rng * tf_rng))
  : M world A :=
  fun w =>
    let g := genv w in
    let '(r, (np', tf')) := f (np_state g, tf_state g) in
    let w' := {| self := self w;
                 genv := {| np_state := np'; tf_state := tf';
                            trace := trace g |} |} in
    match r with
    | Some a => (inr a, w')
    | None => (inl KerasError, w')
    end.

(** ** Library calls, traced *)

Definition check_array_ (X : matrix) : M world matrix :=
  emit (Ev_check_array X) ;;
  or_raise ValueError_check_array (check_array X).

(** [StandardScaler.transform]: row by row, rejecting a row of the wrong
    width. *)
Definition transform_ (sc : Scaler) (X : matrix) : M world matrix :=
  emit (Ev_scaler_transform X) ;;
  or_raise ValueError_transform (traverse (scale_row sc) X).

(** [np.random.shuffle(X_norm)]: permutes the rows in place, drawing from
    NumPy's global generator. *)
Definition shuffle_ (X : matrix) : M world matrix :=
  emit (Ev_shuffle X) ;;
  fun w =>
    let g := genv w in
    let (X', np') := np_shuffle (np_state g) X in
    (inr X', {| self := self w;
                genv := {| np_state := np'; tf_state := tf_state g;
                           trace := trace g |} |}).

(** [model.predict]: one forward pass per row, in row order. *)
Definition predict_ (m : Model) (X : matrix) : M world (list Float.t) :=
  emit (Ev_predict X) ;;
  ret (map (keras_forward m) X).

(** ** [__init__] *)

Record init_args := {
  a_c : option center;
  a_use_ae : bool;
  a_hidden_neurons : option (list Z);
  a_hidden_activation : string;
  a_output_activation : string;
  a_optimizer : string;
  a_epochs : Z;
  a_batch_size : Z;
  a_callbacks : option (list Callback);
  a_dropout_rate : Float.t;
  a_l2_regularizer : Float.t;
  a_validation_data : option (matrix * labels);
  a_validation_size : option Float.t;
  a_preprocessing : bool;
  a_verbose : Z;
  a_random_state : option Z;
  a_contamination : Float.t
}.

(** The defaults of the signature, with the arguments a caller varies. *)
Definition default_args : init_args :=
  {| a_c := None;
     a_use_ae := false;
     a_hidden_neurons := None;
     a_hidden_activation := "relu";
     a_output_activation := "sigmoid";
     a_optimizer := "adam";
     a_epochs := 100;
     a_batch_size := 32;
     a_callbacks := None;
     a_dropout_rate := Float.fifth64;
     a_l2_regularizer := Float.tenth64;
     a_validation_data := None;
     a_validation_size := Some Float.tenth64;
     a_preprocessing := true;
     a_verbose := 1;
     a_random_state := None;
     a_contamination := Float.tenth64 |}.

Definition set_seed_ (seed : Z) : M env unit :=
  emit_env (Ev_set_seed seed) ;;
  modify (fun g => {| np_state := np_state g;
                      tf_state := tf_set_seed seed;
                      trace := trace g |}).

Definition __init__ (a : init_args) : M env DeepSVDD :=
  b <- or_raise ValueError_contamination (base_init (a_contamination a)) ;;
  match a_random_state a with
  | Some seed => set_seed_ seed
  | None => ret tt
  end ;;
  let hidden :=
    match a_hidden_neurons a with
    | None => [64; 32]%Z
    | Some l => l
    end in
  let validation_size :=
    match a_validation_data a with
    | Some _ => None
    | None => a_validation_size a
    end in
  check_parameter (a_dropout_rate a) Float.zero Float.one64 true false ;;
  ret {| hp := {| use_ae := a_use_ae a;
                  hidden_neurons := hidden;
                  hidden_neurons_ := hidden;
                  hidden_activation := a_hidden_activation a;
                  output_activation := a_output_activation a;
                  optimizer := a_optimizer a;
                  epochs := a_epochs a;
                  batch_size := a_batch_size a;
                  callbacks := a_callbacks a;
                  dropout_rate := a_dropout_rate a;
                  l2_regularizer := a_l2_regularizer a;
                  validation_size := validation_size;
                  preprocessing := a_preprocessing a;
                  verbose := a_verbose a;
                  random_state := a_random_state a |};
         base := b;
         c := a_c a;
         validation_data := a_validation_data a;
         n_samples_ := None;
         n_features_ := None;
         scaler_ := None;
         model_ := None;
         history_ := None;
         decision_scores_ := None |}.

(** ** [_init_c] *)

Definition mask_assign_c (mask : Float.t -> bool) (v : Float.t)
  : M world unit :=
  cc <- attr c ;;
  match cc with
  | C_array a => update (set_c (Some (C_array (mask_assign mask v a))))
  | C_scalar _ => raise AttributeError
  end.

Definition _init_c (X_norm : matrix) (eps : Float.t) : M world unit :=
  m <- attr model_ ;;
  emit (Ev_embed X_norm) ;;
  let out_ := map (keras_embed m) X_norm in
  let nf_predict := shape0 out_ in
  let out_ := np_sum_axis0 out_ in
  let out_ := np_divide out_ nf_predict in
  update (set_c (Some (C_array out_))) ;;
  mask_assign_c (neg_mask eps) (Float.opp eps) ;;
  mask_assign_c (pos_mask eps) eps.

(** ** [_build_model] *)

Definition encoder_layers (p : params) (h0 : Z) : list layer :=
  let dense h name :=
    Dense h (hidden_activation p) (l2_regularizer p) name in
  dense h0 None
  :: flat_map (fun h => [dense h None; Dropout (dropout_rate p)])
       (removelast (tl (hidden_neurons_ p)))                 (* [1:-1] *)
  ++ [dense (last (hidden_neurons_ p) h0) (Some "net_output"%string)].

Definition decoder_layers (p : params) (n_features : Z) : list layer :=
  flat_map (fun r => [Dense r (hidden_activation p) (l2_regularizer p) None;
                      Dropout (dropout_rate p)])
    (rev (hidden_neurons_ p))                                (* [::-1] *)
  ++ [Dense n_features (output_activation p) (l2_regularizer p) None].

Definition _build_model (training : bool) : M world Model :=
  p <- field hp ;;
  nf <- attr n_features_ ;;
  match hidden_neurons_ p with
  | [] => raise IndexError
  | h0 :: _ =>
      cc <- attr c ;;
      let net :=
        {| net_inputs := nf;
           net_encoder := encoder_layers p h0;
           net_center := cc;
           net_decoder :=
             if use_ae p then Some (decoder_layers p nf) else None;
           net_optimizer := optimizer p |} in
      emit (Ev_build net) ;;
      dsvd <- with_rngs (keras_compile net) ;;
      when ((verbose p >=? 1)%Z && training) (emit Ev_summary) ;;
      ret dsvd
  end.

(** ** [fit]

    The body of [fit], block by block in the order of the source; the
    local variables of the method ([X], [X_val], [y_val], [X_norm]) are
    passed from block to block. *)

(** Validate [X] and the validation data, record the shape. *)
Definition fit_validate (X : matrix)
  : M world (matrix * option (matrix * labels)) :=
  X <- check_array_ X ;;
  b <- field base ;;
  update (set_base (set_n_classes b)) ;;             (* _set_n_classes(y) *)
  vd <- field validation_data ;;
  val <- match vd with
         | Some (X_val, y_val) =>
             X_val <- check_array_ X_val ;;
             update (set_validation_data (Some (X_val, y_val))) ;;
             ret (Some (X_val, y_val))
         | None => ret None
         end ;;
  update (set_n_samples_ (shape0 X)) ;;
  update (set_n_features_ (shape1 X)) ;;
  ret (X, val).

(** "Standardize data for better performance".  [fit_transform] fits the
    scaler stored in [scaler_] and then transforms with it; [np.copy]
    returns an equal array. *)
Definition fit_standardize (X : matrix) (val : option (matrix * labels))
  : M world matrix :=
  p <- field hp ;;
  if preprocessing p then
    emit (Ev_scaler_fit X) ;;
    let sc := scaler_fit X in
    update (set_scaler_ sc) ;;
    X_norm <- transform_ sc X ;;
    vd <- field validation_data ;;
    match vd, val with
    | Some _, Some (X_val, y_val) =>
        X_val_norm <- transform_ sc X_val ;;
        update (set_validation_data (Some (X_val_norm, y_val)))
    | _, _ => ret tt
    end ;;
    ret X_norm
  else ret X.

(** "Shuffle the data for validation as Keras do not shuffling for
    Validation Split" *)
Definition fit_shuffle (X_norm : matrix) : M world matrix :=
  p <- field hp ;;
  match validation_size p with
  | Some _ => shuffle_ X_norm
  | None => ret X_norm
  end.

(** "Validate and complete the number of hidden neurons" *)
Definition fit_check_neurons : M world unit :=
  p <- field hp ;;
  mn <- or_raise ValueError_np_min (np_min (hidden_neurons p)) ;;
  nf <- attr n_features_ ;;
  if (mn >? nf)%Z && use_ae p then raise ValueError_neurons else ret tt.

(** [if self.c is None: ...] *)
Definition fit_center (X_norm : matrix) : M world unit :=
  c0 <- field c ;;
  match c0 with
  | None =>
      update (set_c (Some (C_scalar Float.zero))) ;;
      m <- _build_model false ;;
      update (set_model_ m) ;;
      _init_c X_norm eps_default
  | Some _ => ret tt
  end.

(** "Build DeepSVDD model & fit with X".  Keras trains the model object
    held in [model_] in place and returns the history. *)
Definition fit_train (X_norm : matrix) : M world unit :=
  m <- _build_model true ;;
  update (set_model_ m) ;;
  p <- field hp ;;
  vd <- field validation_data ;;
  emit (Ev_train X_norm) ;;
  mh <- with_rngs
          (keras_fit m X_norm X_norm
             {| fa_epochs := epochs p;
                fa_batch_size := batch_size p;
                fa_shuffle := true;
                fa_callbacks := callbacks p;
                fa_validation_split := validation_size p;
                fa_validation_data := vd;
                fa_verbose := verbose p |}) ;;
  update (set_model_ (fst mh)) ;;
  update (set_history_ (snd mh)).

(** "Predict on X itself and calculate the reconstruction error as the
    outlier scores.  Noted X_norm was shuffled has to recreate" *)
Definition fit_score (X : matrix) : M world unit :=
  p <- field hp ;;
  X_norm <- (if preprocessing p then
               sc <- attr scaler_ ;; transform_ sc X
             else ret X) ;;
  m <- attr model_ ;;
  scores <- predict_ m X_norm ;;
  update (set_decision_scores_ scores) ;;
  b <- field base ;;
  update (set_base (process_decision_scores b scores)).

Definition fit (X : matrix) : M world unit :=
  Xv <- fit_validate X ;;
  X_norm <- fit_standardize (fst Xv) (snd Xv) ;;
  X_norm <- fit_shuffle X_norm ;;
  fit_check_neurons ;;
  fit_center X_norm ;;
  fit_train X_norm ;;
  fit_score (fst Xv).

(** ** [decision_function] *)

(** [check_is_fitted(self, ['model_', 'history_'])] *)
Definition check_is_fitted : M world unit :=
  o <- gets self ;;
  match model_ o, history_ o with
  | Some _, Some _ => ret tt
  | _, _ => raise NotFittedError
  end.

Definition decision_function (X : matrix) : M world (list Float.t) :=
  check_is_fitted ;;
  X <- check_array_ X ;;
  p <- field hp ;;
  X_norm <- (if preprocessing p then
               sc <- attr scaler_ ;; transform_ sc X
             else ret X) ;;
  m <- attr model_ ;;
  pred_scores <- predict_ m X_norm ;;
  ret pred_scores.

(** Construct in [g], then run a method on the new object. *)
Definition construct (a : init_args) (g : env) : exn + world :=
  match __init__ a g with
  | (inr o, g') => inr {| self := o; genv := g' |}
  | (inl e, _) => inl e
  end.

End Estimator.

(** ** Vocabulary of the properties *)

(** The widths of the [Dense] layers of a chain, in order, and the
    number of its [Dropout] layers. *)
Definition dense_units (ls : list layer) : list Z :=
  flat_map (fun l => match l with
                     | Dense u _ _ _ => [u]
                     | Dropout _ => []
                     end) ls.

Definition dropouts (ls : list layer) : nat :=
  length (filter (fun l => match l with
                           | Dropout _ => true
                           | Dense _ _ _ _ => false
                           end) ls).

(** The names given to layers of a chain. *)
Definition layer_names (ls : list layer) : list string :=
  flat_map (fun l => match l with
                     | Dense _ _ _ (Some n) => [n]
                     | _ => []
                     end) ls.

Section Vocabulary.

Context {B : Backend}.

(** A computation leaves an observation [f] of the object as it was,
    whether it returns or raises. *)
Definition preserves {A T} (f : DeepSVDD -> T) (m : M world A) : Prop :=
  forall w r w', m w = (r, w') -> f (self w') = f (self w).

(** A computation keeps the invariant [I] of the object, only appends
    to the trace, and only events in [P], and raises only exceptions in
    [E]. *)
Definition maintains {A} (I : DeepSVDD -> Prop) (P : event -> Prop)
  (E : exn -> Prop) (m : M world A) : Prop :=
  forall w r w', I (self w) -> m w = (r, w') ->
    I (self w')
    /\ (exists evs, trace (genv w') = trace (genv w) ++ evs /\ Forall P evs)
    /\ (forall e, r = inl e -> E e).

Definition always (o : DeepSVDD) : Prop := True.
Definition any_event (ev : event) : Prop := True.
Definition any_exn (e : exn) : Prop := True.
Definition no_build (ev : event) : Prop := is_build ev = false.
Definition not_neurons (e : exn) : Prop := e <> ValueError_neurons.
Definition not_shuffle (ev : event) : Prop :=
  match ev with Ev_shuffle _ => False | _ => True end.
Definition not_scaler (ev : event) : Prop :=
  match ev with
  | Ev_scaler_fit _ | Ev_scaler_transform _ => False
  | _ => True
  end.

(** [X] passes [check_array] as [Xc], is accepted by a scaler fitted on
    it, and so is the validation set of the object, if there is one. *)
Definition accepted (o : DeepSVDD) (X Xc : matrix) : Prop :=
  check_array X = Some Xc /\
  (preprocessing (hp o) = true ->
   traverse (scale_row (scaler_fit Xc)) Xc <> None) /\
  (forall X_val y_val, validation_data o = Some (X_val, y_val) ->
     exists Xv, check_array X_val = Some Xv /\
       (preprocessing (hp o) = true ->
        traverse (scale_row (scaler_fit Xc)) Xv <> None)).

(** [Xn] is the validated array [Xc] as the fitted object prepares it
    for the network: transformed by [scaler_], or as it is. *)
Definition standardized (o : DeepSVDD) (Xc Xn : matrix) : Prop :=
  if preprocessing (hp o)
  then exists sc, scaler_ o = Some sc /\
                  traverse (scale_row sc) Xc = Some Xn
  else Xn = Xc.

(** The mean embedding computed by [_init_c] on [X_norm] with the
    placeholder model [m], before clamping. *)
Definition mean_embedding (m : Model) (X_norm : matrix) : list Float.t :=
  let out_ := map (keras_embed m) X_norm in
  np_divide (np_sum_axis0 out_) (shape0 out_).

(** An object without preprocessing whose [scaler_] attribute is [s]
    (present or not). *)
Definition raw (s : option Scaler) (o : DeepSVDD) : Prop :=
  preprocessing (hp o) = false /\ scaler_ o = s.

(** An event of a call that works with the center [cc]: no embedding
    pass for a new center, and every network is built around [cc]. *)
Definition uses_center (cc : center) (ev : event) : Prop :=
  is_embed ev = false /\
  forall net, ev = Ev_build net -> net_center net = cc.

(** Any number of further calls of [fit], returning or raising. *)
Inductive refit : world -> world -> Prop :=
| refit_none w : refit w w
| refit_more w X r w1 w2 :
    fit X w = (r, w1) -> refit w1 w2 -> refit w w2.

(** How [fit] prepares the validated validation features [Xv] once the
    scaler is fitted on [Xc]. *)
Definition prepared (o : DeepSVDD) (Xc Xv Xvn : matrix) : Prop :=
  if preprocessing (hp o)
  then traverse (scale_row (scaler_fit Xc)) Xv = Some Xvn
  else Xvn = Xv.

(** States in which no [fit] has returned yet: a new object, possibly
    after calls of [fit] that raised and calls of [decision_function]. *)
Inductive never_fitted : world -> Prop :=
| nf_new a g w :
    construct a g = inr w -> never_fitted w
| nf_fit_raised w X e w' :
    never_fitted w -> fit X w = (inl e, w') -> never_fitted w'
| nf_scored w X r w' :
    never_fitted w -> decision_function X w = (r, w') -> never_fitted w'.

End Vocabulary.

(** ** A deterministic backend for running the model

    Small stand-ins with the interface of the libraries: the validator
    accepts non-empty rectangular arrays of finite numbers; the scaler
    learns the width and halves every entry; the generator state is a
    counter and a shuffle reverses the rows when the counter is odd;
    training memorises the first row it is given and the network scores
    that row 0 and every other row 1.  Sums and divisions are binary32
    operations. *)

Module Sim.

Definition finite (x : Float.t) : bool :=
  match x with
  | S754_zero _ | S754_finite _ _ _ => true
  | _ => false
  end.

Definition check_array (X : matrix) : option matrix :=
  match X with
  | [] => None
  | r :: _ =>
      if (0 <? length r)%nat
         && forallb (fun r' => (length r' =? length r)%nat) X
         && forallb (forallb finite) X
      then Some X else None
  end.

Definition scale_row (width : nat) (r : row) : option row :=
  if (length r =? width)%nat
  then Some (map (fun x => SFmul 24 128 x Float.half) r)
  else None.

Definition add_rows (a b : row) : row :=
  map (fun xy => SFadd 24 128 (fst xy) (snd xy)) (combine a b).

Definition np_sum_axis0 (X : matrix) : row :=
  match X with
  | [] => []
  | r :: X' => fold_left add_rows X' r
  end.

Definition np_divide (r : row) (n : Z) : row :=
  map (fun x => SFdiv 24 128 x (binary_normalize 24 128 n 0 false)) r.

Definition np_shuffle (s : nat) (X : matrix) : matrix * nat :=
  (if Nat.even s then X else rev X, S s).

Record model := { m_net : network; m_seed : Z; m_seen : row }.

Definition row_eqb (a b : row) : bool :=
  (length a =? length b)%nat
  && forallb (fun xy => SFeqb (fst xy) (snd xy)) (combine a b).

Definition forward (m : model) (r : row) : Float.t :=
  if row_eqb r (m_seen m) then Float.zero else Float.one.

Definition compile (net : network) (g : nat * Z)
  : option model * (nat * Z) :=
  (Some {| m_net := net; m_seed := snd g; m_seen := [] |},
   (fst g, (snd g + 1)%Z)).

Definition train (m : model) (X Y : matrix) (a : fit_args unit)
  (g : nat * Z) : option (model * Z) * (nat * Z) :=
  (Some ({| m_net := m_net m; m_seed := m_seed m; m_seen := hd [] X |},
         fa_epochs a),
   (fst g, (snd g + 1)%Z)).

Definition base_init (contamination : Float.t) : option (Float.t * Z) :=
  if Float.ltb Float.zero contamination
     && Float.leb contamination Float.half64
  then Some (contamination, 0%Z) else None.

Definition backend : Backend :=
  @Build_Backend
    (Float.t * Z) nat model Z unit nat Z
    base_init
    (fun b => (fst b, 2%Z))
    (fun b _ => b)
    check_array
    (fun X => length (hd [] X))
    scale_row
    np_shuffle
    np_sum_axis0
    np_divide
    (fun seed => seed)
    compile
    (fun m r => r)
    forward
    train.

(** A process that has not drawn a random number yet. *)
Definition env0 (np : nat) : @env backend :=
  @Build_env backend np 0%Z [].

(** The default arguments with a validation set of one row. *)
Definition args_val : @init_args backend :=
  {| a_c := None; a_use_ae := false; a_hidden_neurons := None;
     a_hidden_activation := "relu"; a_output_activation := "sigmoid";
     a_optimizer := "adam"; a_epochs := 100; a_batch_size := 32;
     a_callbacks := None; a_dropout_rate := Float.fifth64;
     a_l2_regularizer := Float.tenth64;
     a_validation_data := Some ([[Float.one]], [0%Z]);
     a_validation_size := Some Float.tenth64;
     a_preprocessing := true; a_verbose := 1; a_random_state := None;
     a_contamination := Float.tenth64 |}.

(** Autoencoder with hidden widths [20, 15]. *)
Definition args_ae : @init_args backend :=
  {| a_c := None; a_use_ae := true; a_hidden_neurons := Some [20; 15]%Z;
     a_hidden_activation := "relu"; a_output_activation := "sigmoid";
     a_optimizer := "adam"; a_epochs := 100; a_batch_size := 32;
     a_callbacks := None; a_dropout_rate := Float.fifth64;
     a_l2_regularizer := Float.tenth64;
     a_validation_data := None;
     a_validation_size := Some Float.tenth64;
     a_preprocessing := true; a_verbose := 1; a_random_state := None;
     a_contamination := Float.tenth64 |}.

(** The defaults with [random_state=42]. *)
Definition args_seed : @init_args backend :=
  {| a_c := None; a_use_ae := false; a_hidden_neurons := None;
     a_hidden_activation := "relu"; a_output_activation := "sigmoid";
     a_optimizer := "adam"; a_epochs := 100; a_batch_size := 32;
     a_callbacks := None; a_dropout_rate := Float.fifth64;
     a_l2_regularizer := Float.tenth64;
     a_validation_data := None;
     a_validation_size := Some Float.tenth64;
     a_preprocessing := true; a_verbose := 1; a_random_state := Some 42%Z;
     a_contamination := Float.tenth64 |}.

(** The defaults with an empty list of hidden widths, and the defaults
    with [use_ae=True]. *)
Definition args_empty : @init_args backend :=
  {| a_c := None; a_use_ae := false; a_hidden_neurons := Some [];
     a_hidden_activation := "relu"; a_output_activation := "sigmoid";
     a_optimizer := "adam"; a_epochs := 100; a_batch_size := 32;
     a_callbacks := None; a_dropout_rate := Float.fifth64;
     a_l2_regularizer := Float.tenth64;
     a_validation_data := None;
     a_validation_size := Some Float.tenth64;
     a_preprocessing := true; a_verbose := 1; a_random_state := None;
     a_contamination := Float.tenth64 |}.

Definition args_default_ae : @init_args backend :=
  {| a_c := None; a_use_ae := true; a_hidden_neurons := None;
     a_hidden_activation := "relu"; a_output_activation := "sigmoid";
     a_optimizer := "adam"; a_epochs := 100; a_batch_size := 32;
     a_callbacks := None; a_dropout_rate := Float.fifth64;
     a_l2_regularizer := Float.tenth64;
     a_validation_data := None;
     a_validation_size := Some Float.tenth64;
     a_preprocessing := true; a_verbose := 1; a_random_state := None;
     a_contamination := Float.tenth64 |}.

(** The defaults with [preprocessing=False]. *)
Definition args_raw : @init_args backend :=
  {| a_c := None; a_use_ae := false; a_hidden_neurons := None;
     a_hidden_activation := "relu"; a_output_activation := "sigmoid";
     a_optimizer := "adam"; a_epochs := 100; a_batch_size := 32;
     a_callbacks := None; a_dropout_rate := Float.fifth64;
     a_l2_regularizer := Float.tenth64;
     a_validation_data := None;
     a_validation_size := Some Float.tenth64;
     a_preprocessing := false; a_verbose := 1; a_random_state := None;
     a_contamination := Float.tenth64 |}.

(** Two samples of one feature, and one sample of ten features. *)
Definition X_2x1 : matrix := [[Float.one]; [Float.two]].
Definition X_1x10 : matrix := [repeat Float.one 10].

(** A new object in a process whose NumPy generator is in state [np];
    were the arguments rejected, an object without any setting. *)
Definition blank : @DeepSVDD backend :=
  {| hp := {| use_ae := false; hidden_neurons := [];
              hidden_neurons_ := [];
              hidden_activation := ""; output_activation := "";
              optimizer := ""; epochs := 0; batch_size := 0;
              callbacks := None; dropout_rate := Float.zero;
              l2_regularizer := Float.zero;
              validation_size := None; preprocessing := false;
              verbose := 0; random_state := None |};
     base := ((Float.zero, 0%Z) : @Base backend); c := None;
     validation_data := None; n_samples_ := None;
     n_features_ := None; scaler_ := None; model_ := None;
     history_ := None; decision_scores_ := None |}.

Definition new_in (a : @init_args backend) (g : @env backend) : world :=
  match construct a g with
  | inr w => w
  | inl _ => {| self := blank; genv := g |}
  end.

Definition new (a : @init_args backend) (np : nat) : world :=
  new_in a (env0 np).

(** The world after a call of [fit]. *)
Definition after_fit (X : matrix) (w : @world backend) : world :=
  snd (fit X w).

(** The runs used as examples: the default estimator fitted on two
    samples in a process whose shuffle reverses the rows, and the
    autoencoder of widths [20, 15] fitted on ten features. *)
Definition fresh : world := new default_args 1.
Definition fitted : world := after_fit X_2x1 fresh.
Definition fresh_ae : world := new args_ae 0.
Definition failed_ae : world := after_fit X_1x10 fresh_ae.

Definition fresh_empty : world := new args_empty 0.
Definition fresh_default_ae : world := new args_default_ae 0.

Definition fresh_raw : world := new args_raw 0.
Definition fitted_raw : world := after_fit X_2x1 fresh_raw.

(** The estimator with a validation set, fitted twice. *)
Definition fresh_val : world := new args_val 0.
Definition fitted_val : world := after_fit X_2x1 fresh_val.
Definition refitted_val : world := after_fit X_2x1 fitted_val.

(** Two runs with [random_state=42] in one process: construct and fit,
    then construct and fit again. *)
Definition seeded1 : world := new args_seed 0.
Definition run1 : world := after_fit X_2x1 seeded1.
Definition seeded2 : world := new_in args_seed (genv run1).
Definition run2 : world := after_fit X_2x1 seeded2.

End Sim.

(** * Properties *)

Unset Implicit Arguments.

(** ** Facts on floating-point comparison *)

Lemma cmp_cont_refl (m : positive) : Pos.compare_cont Eq m m = Eq.
Proof. apply Pos.compare_cont_refl. Qed.

Lemma ltb_irrefl (x : Float.t) : Float.ltb x x = false.
Proof.
  destruct x as [s|s| |s m e]; try (destruct s); try reflexivity;
    unfold Float.ltb, SFltb, SFcompare;
    rewrite Z.compare_refl, cmp_cont_refl; reflexivity.
Qed.

Lemma compare_antisym (a b : Float.t) :
  SFcompare b a = option_map CompOpp (SFcompare a b).
Proof.
  destruct a as [s|s| |s m e], b as [s'|s'| |s' m' e'];
    try destruct s; try destruct s'; try reflexivity;
    simpl; rewrite (Z.compare_antisym e' e);
    destruct (e' ?= e)%Z; simpl; try reflexivity;
    rewrite (Pos.compare_cont_antisym m m' Eq); reflexivity.
Qed.

Lemma leb_not_ltb (a b : Float.t) :
  Float.leb a b = true -> Float.ltb b a = false.
Proof.
  unfold Float.leb, Float.ltb, SFleb, SFltb.
  rewrite (compare_antisym a b).
  destruct (SFcompare a b) as [[ | | ]|]; simpl; congruence.
Qed.

Lemma abs_opp (x : Float.t) : Float.abs (Float.opp x) = Float.abs x.
Proof. destruct x; reflexivity. Qed.

Lemma abs_not_below_self (e : Float.t) :
  Float.ltb (Float.abs e) e = false.
Proof.
  destruct e as [s|s| |s m x]; try (destruct s); try reflexivity.
  apply (ltb_irrefl (S754_finite false m x)).
Qed.

Lemma gtb_zero_not_ltb (x : Float.t) :
  Float.gtb x Float.zero = true -> Float.ltb x Float.zero = false.
Proof. destruct x as [s|s| |s m e]; try (destruct s); cbv; congruence. Qed.

(** ** Center clamping *)

Lemma clamp_c_pointwise (eps : Float.t) (c : list Float.t) :
  clamp_c eps c = map (clamp_coord eps) c.
Proof.
  unfold clamp_c, mask_assign. rewrite map_map. reflexivity.
Qed.

Lemma clamp_c_length (eps : Float.t) (c : list Float.t) :
  length (clamp_c eps c) = length c.
Proof. rewrite clamp_c_pointwise. apply length_map. Qed.

Lemma clamp_coord_negative (eps x : Float.t) :
  Float.ltb (Float.abs x) eps = true -> Float.ltb x Float.zero = true ->
  clamp_coord eps x = Float.opp eps.
Proof.
  intros Ha Hn. unfold clamp_coord, neg_mask, pos_mask.
  rewrite Ha, Hn. simpl.
  rewrite abs_opp, abs_not_below_self. reflexivity.
Qed.

Lemma clamp_coord_positive (eps x : Float.t) :
  Float.ltb (Float.abs x) eps = true -> Float.gtb x Float.zero = true ->
  clamp_coord eps x = eps.
Proof.
  intros Ha Hp. unfold clamp_coord, neg_mask, pos_mask.
  rewrite Ha, (gtb_zero_not_ltb x Hp). simpl.
  rewrite Ha, Hp. reflexivity.
Qed.

Lemma clamp_coord_zero (eps x : Float.t) :
  Float.is_zero x = true -> clamp_coord eps x = x.
Proof.
  destruct x as [s|s| |s m e]; try discriminate. intros _.
  destruct s, eps as [s'|s'| |s' m e]; try destruct s'; reflexivity.
Qed.

Lemma clamp_coord_far (eps x : Float.t) :
  Float.ltb (Float.abs x) eps = false -> clamp_coord eps x = x.
Proof.
  intros Ha. unfold clamp_coord, neg_mask, pos_mask. rewrite Ha. simpl.
  rewrite Ha. reflexivity.
Qed.

(** C1, as stated, fails at a zero coordinate: with the default [eps],
    a raw mean embedding [0.0] is left at [0.0] by both statements
    (neither [0 < 0] nor [0 > 0] holds); it does not become [+eps]. *)
Lemma clamp_c_zero_not_eps :
  Float.is_zero Float.zero = true /\
  clamp_c eps_default [Float.zero] = [Float.zero] /\
  clamp_c eps_default [Float.zero] <> [eps_default].
Proof. repeat split. discriminate. Qed.

(** C1, amended: for every coordinate [x] of the raw mean embedding, the
    clamp leaves at the same position: [-eps] if [|x| < eps] and [x < 0];
    [+eps] if [|x| < eps] and [x > 0]; [x] itself if [x] is a zero
    (of either sign); [x] itself if [|x| >= eps]. *)
Theorem clamp_c_spec (eps : Float.t) (c : list Float.t) (i : nat)
  (x : Float.t) :
  nth_error c i = Some x ->
  exists y, nth_error (clamp_c eps c) i = Some y /\
    (Float.ltb (Float.abs x) eps = true ->
     Float.ltb x Float.zero = true -> y = Float.opp eps) /\
    (Float.ltb (Float.abs x) eps = true ->
     Float.gtb x Float.zero = true -> y = eps) /\
    (Float.is_zero x = true -> y = x) /\
    (Float.geb (Float.abs x) eps = true -> y = x).
Proof.
  intros Hx. exists (clamp_coord eps x). split.
  - rewrite clamp_c_pointwise. now apply map_nth_error.
  - repeat split.
    + apply clamp_coord_negative.
    + apply clamp_coord_positive.
    + apply clamp_coord_zero.
    + intros H. apply clamp_coord_far. now apply leb_not_ltb.
Qed.

(** The amended C1 at the center [-0.05, 0.05, 0.0, 1.0], second
    coordinate. *)
Lemma clamp_c_spec_witness :
  exists y,
    nth_error
      (clamp_c eps_default
         [Float.opp Float.twentieth; Float.twentieth; Float.zero; Float.one])
      1 = Some y /\
    (Float.ltb (Float.abs Float.twentieth) eps_default = true ->
     Float.ltb Float.twentieth Float.zero = true ->
     y = Float.opp eps_default) /\
    (Float.ltb (Float.abs Float.twentieth) eps_default = true ->
     Float.gtb Float.twentieth Float.zero = true -> y = eps_default) /\
    (Float.is_zero Float.twentieth = true -> y = Float.twentieth) /\
    (Float.geb (Float.abs Float.twentieth) eps_default = true ->
     y = Float.twentieth).
Proof.
  apply (clamp_c_spec eps_default
           [Float.opp Float.twentieth; Float.twentieth; Float.zero; Float.one]
           1 Float.twentieth).
  reflexivity.
Defined.

(** ** Rules for runs *)

Section Rules.

Context {B : Backend}.

Lemma bind_inr {S A C} (m : M S A) (k : A -> M S C) s c s' :
  bind m k s = (inr c, s') ->
  exists a s1, m s = (inr a, s1) /\ k a s1 = (inr c, s').
Proof.
  unfold bind. destruct (m s) as [[e|a] s1]; intros H.
  - discriminate.
  - now exists a, s1.
Qed.

Lemma bind_inl {S A C} (m : M S A) (k : A -> M S C) s e s' :
  bind m k s = (inl e, s') ->
  m s = (inl e, s') \/
  exists a s1, m s = (inr a, s1) /\ k a s1 = (inl e, s').
Proof.
  unfold bind. destruct (m s) as [[e0|a] s1]; intros H.
  - left. inversion H. reflexivity.
  - right. now exists a, s1.
Qed.

Lemma bind_run {S A C} (m : M S A) (k : A -> M S C) s a s1 :
  m s = (inr a, s1) -> bind m k s = k a s1.
Proof. unfold bind. now intros ->. Qed.

Lemma bind_raise {S A C} (m : M S A) (k : A -> M S C) s e s1 :
  m s = (inl e, s1) -> bind m k s = (inl e, s1).
Proof. unfold bind. now intros ->. Qed.

Lemma run_eq {S A} (m : M S A) s r :
  fst (m s) = r -> m s = (r, snd (m s)).
Proof. destruct (m s). simpl. now intros ->. Qed.

(** *** [preserves] *)

Lemma preserves_bind {A C T} (f : DeepSVDD -> T) (m : M world A)
  (k : A -> M world C) :
  preserves f m -> (forall a, preserves f (k a)) -> preserves f (bind m k).
Proof.
  intros Hm Hk w r w'. unfold bind.
  destruct (m w) as [[e|a] w1] eqn:E; intros H.
  - inversion H; subst. eapply Hm; eauto.
  - rewrite (Hk a _ _ _ H). eapply Hm; eauto.
Qed.

Lemma preserves_ret {A T} (f : DeepSVDD -> T) (a : A) : preserves f (ret a).
Proof. intros w r w' H. now inversion H. Qed.

Lemma preserves_raise {A T} (f : DeepSVDD -> T) e :
  preserves f (@raise world A e).
Proof. intros w r w' H. now inversion H. Qed.

Lemma preserves_or_raise {A T} (f : DeepSVDD -> T) e (o : option A) :
  preserves f (or_raise e o).
Proof. destruct o; [apply preserves_ret | apply preserves_raise]. Qed.

Lemma preserves_gets {A T} (f : DeepSVDD -> T) (g : world -> A) :
  preserves f (gets g).
Proof. intros w r w' H. now inversion H. Qed.

Lemma preserves_field {A T} (f : DeepSVDD -> T) (g : DeepSVDD -> A) :
  preserves f (field g).
Proof. apply preserves_gets. Qed.

Lemma preserves_attr {A T} (f : DeepSVDD -> T) (g : DeepSVDD -> option A) :
  preserves f (attr g).
Proof.
  apply preserves_bind; [apply preserves_field | intros; apply preserves_or_raise].
Qed.

Lemma preserves_on_env {A T} (f : DeepSVDD -> T) (m : M env A) :
  preserves f (on_env m).
Proof.
  intros w r w'. unfold on_env. destruct (m (genv w)). intros H.
  now inversion H.
Qed.

Lemma preserves_emit {T} (f : DeepSVDD -> T) ev : preserves f (emit ev).
Proof. apply preserves_on_env. Qed.

Lemma preserves_update {T} (f : DeepSVDD -> T) (u : DeepSVDD -> DeepSVDD) :
  (forall o, f (u o) = f o) -> preserves f (update u).
Proof. intros Hu w r w' H. inversion H; subst. apply Hu. Qed.

Lemma preserves_with_rngs {A T} (f : DeepSVDD -> T) k :
  preserves f (@with_rngs B A k).
Proof.
  intros w r w'. unfold with_rngs.
  destruct (k _) as [[a|] [np' tf']]; intros H; now inversion H.
Qed.

Lemma preserves_shuffle {T} (f : DeepSVDD -> T) X : preserves f (shuffle_ X).
Proof.
  intros w r w'. unfold shuffle_, bind, emit, on_env, emit_env, modify.
  cbn. destruct (np_shuffle (np_state (genv w)) X). intros H.
  now inversion H.
Qed.

Lemma preserves_when {T} (f : DeepSVDD -> T) b m :
  preserves f m -> preserves f (when b m).
Proof. destruct b; [auto | intros; apply preserves_ret]. Qed.

End Rules.

Create HintDb pres discriminated.

#[export] Hint Resolve preserves_ret preserves_raise preserves_or_raise
  preserves_gets preserves_field preserves_attr preserves_emit
  preserves_with_rngs preserves_shuffle preserves_when : pres.

(** Decompose a computation along its binds and tests; what remains are
    the assignments that may touch the observation. *)
Ltac pres :=
  repeat first
    [ progress auto with pres
    | apply preserves_bind; [| intros ?]
    | apply preserves_update; intros ?; reflexivity
    | match goal with
      | |- preserves _ (match ?d with _ => _ end) => destruct d
      | |- preserves _ (let _ := _ in _) => cbv zeta
      end ].

(** *** [maintains] *)

Section TraceRules.

Context {B : Backend}.

Variable I : DeepSVDD -> Prop.
Variable P : event -> Prop.
Variable E : exn -> Prop.

(** A step that changes neither the object nor the trace. *)
Lemma maintains_silent {A} (m : M world A) :
  (forall w r w', m w = (r, w') ->
     self w' = self w /\ trace (genv w') = trace (genv w)
     /\ forall e, r = inl e -> E e) ->
  maintains I P E m.
Proof.
  intros Hm w r w' HI H. destruct (Hm _ _ _ H) as (Hs & Ht & He).
  rewrite Hs. repeat split; auto.
  exists []. rewrite app_nil_r. auto.
Qed.

Lemma maintains_bind {A C} (m : M world A) (k : A -> M world C) :
  maintains I P E m -> (forall a, maintains I P E (k a)) ->
  maintains I P E (bind m k).
Proof.
  intros Hm Hk w r w' HI. unfold bind.
  destruct (m w) as [[e|a] w1] eqn:Em; intros H.
  - inversion H; subst.
    destruct (Hm _ _ _ HI Em) as (I1 & T1 & E1).
    repeat split; auto. intros e0 He0. inversion He0; subst. now apply E1.
  - destruct (Hm _ _ _ HI Em) as (I1 & (ev1 & T1 & P1) & _).
    destruct (Hk a _ _ _ I1 H) as (I2 & (ev2 & T2 & P2) & E2).
    repeat split; auto.
    exists (ev1 ++ ev2). rewrite T2, T1, app_assoc. split; auto.
    apply Forall_app. auto.
Qed.

Lemma maintains_ret {A} (a : A) : maintains I P E (ret a).
Proof.
  apply maintains_silent. intros w r w' H. inversion H; subst.
  repeat split. discriminate.
Qed.

Lemma maintains_raise {A} e : E e -> maintains I P E (@raise world A e).
Proof.
  intros He. apply maintains_silent. intros w r w' H. inversion H; subst.
  repeat split. intros e0 H0. now inversion H0; subst.
Qed.

Lemma maintains_or_raise {A} e (o : option A) :
  E e -> maintains I P E (or_raise e o).
Proof. destruct o; [intros; apply maintains_ret | apply maintains_raise]. Qed.

Lemma maintains_gets {A} (g : world -> A) : maintains I P E (gets g).
Proof.
  apply maintains_silent. intros w r w' H. inversion H; subst.
  repeat split. discriminate.
Qed.

Lemma maintains_field {A} (g : DeepSVDD -> A) : maintains I P E (field g).
Proof. apply maintains_gets. Qed.

Lemma maintains_attr {A} (g : DeepSVDD -> option A) :
  E AttributeError -> maintains I P E (attr g).
Proof.
  intros. apply maintains_bind;
    [apply maintains_field | intros; now apply maintains_or_raise].
Qed.

Lemma maintains_update (u : DeepSVDD -> DeepSVDD) :
  (forall o, I o -> I (u o)) -> maintains I P E (update u).
Proof.
  intros Hu w r w' HI H. inversion H; subst. cbn. repeat split; auto.
  - exists []. now rewrite app_nil_r.
  - discriminate.
Qed.

Lemma maintains_emit ev : P ev -> maintains I P E (emit ev).
Proof.
  intros HP w r w' HI H. inversion H; subst. cbn. repeat split; auto.
  - exists [ev]. auto.
  - discriminate.
Qed.

Lemma maintains_with_rngs {A} k :
  E KerasError -> maintains I P E (@with_rngs B A k).
Proof.
  intros HE. apply maintains_silent. intros w r w'. unfold with_rngs.
  destruct (k _) as [[a|] [np' tf']]; intros H; inversion H; subst; cbn;
    repeat split; try discriminate.
  intros e He. now inversion He; subst.
Qed.

Lemma maintains_shuffle X : P (Ev_shuffle X) -> maintains I P E (shuffle_ X).
Proof.
  intros HP. apply maintains_bind; [now apply maintains_emit|]. intros _.
  apply maintains_silent. intros w r w'. cbn.
  destruct (np_shuffle (np_state (genv w)) X). intros H.
  inversion H; subst. cbn. repeat split. discriminate.
Qed.

Lemma maintains_when b m :
  maintains I P E m -> maintains I P E (when b m).
Proof. destruct b; [auto | intros; apply maintains_ret]. Qed.

End TraceRules.

Lemma maintains_weaken {B : Backend} {A} (I : DeepSVDD -> Prop)
  (P P' : event -> Prop) (E E' : exn -> Prop) (m : M world A) :
  (forall ev, P ev -> P' ev) -> (forall e, E e -> E' e) ->
  maintains I P E m -> maintains I P' E' m.
Proof.
  intros HP HE Hm w r w' HI H.
  destruct (Hm _ _ _ HI H) as (I1 & (evs & T & F) & E1).
  repeat split; auto.
  exists evs. split; auto. eapply Forall_impl; eauto.
Qed.

Create HintDb maint discriminated.

#[export] Hint Resolve maintains_ret maintains_gets maintains_field
  : maint.

(** Side conditions: an event or an exception is in the given class. *)
Ltac side := cbn; first [ exact Logic.I | reflexivity | discriminate | tauto
                        | intuition (discriminate || congruence) ].

Ltac maint :=
  repeat first
    [ progress auto with maint
    | apply maintains_shuffle; side
    | apply maintains_attr; side
    | apply maintains_with_rngs; side
    | apply maintains_emit; side
    | apply maintains_raise; side
    | apply maintains_or_raise; side
    | apply maintains_when
    | apply maintains_update; intros ? ?; first [assumption | side]
    | apply maintains_bind; [| intros ?]
    | match goal with
      | |- maintains _ _ _ (match ?d with _ => _ end) => destruct d
      | |- maintains _ _ _ (let _ := _ in _) => cbv zeta
      end ].

(** ** The constructor *)

Section Constructor.

Context {B : Backend}.

(** [__init__] returns an object exactly when the parent class accepts
    the contamination and [dropout_rate] is in range; otherwise it
    raises the error of the first check that fails. *)
Lemma init_outcome (a : init_args) (g : env) :
  match base_init (a_contamination a) with
  | None => fst (__init__ a g) = inl ValueError_contamination
  | Some _ =>
      if in_range (a_dropout_rate a) Float.zero Float.one64 true false
      then exists o, fst (__init__ a g) = inr o
      else fst (__init__ a g) = inl ValueError_check_parameter
  end.
Proof.
  unfold __init__, bind, or_raise, check_parameter.
  destruct (base_init (a_contamination a)); [|reflexivity].
  cbn. destruct (a_random_state a); cbn;
    destruct (in_range _ _ _ _ _); cbn; eauto.
Qed.

(** C5: when a validation dataset is supplied, the constructed object
    has [validation_size] cleared to [None] and keeps the dataset; when
    none is supplied, the supplied [validation_size] is kept. *)
Theorem init_validation_exclusive (a : init_args) (g g' : env)
  (o : DeepSVDD) :
  __init__ a g = (inr o, g') ->
  validation_data o = a_validation_data a /\
  (a_validation_data a <> None -> validation_size (hp o) = None) /\
  (a_validation_data a = None ->
   validation_size (hp o) = a_validation_size a).
Proof.
  unfold __init__, bind, or_raise, check_parameter.
  destruct (base_init (a_contamination a)); [|discriminate].
  cbn. destruct (a_random_state a); cbn;
    destruct (in_range _ _ _ _ _); cbn; intros H; inversion H; subst; cbn;
    (split; [reflexivity|]);
    destruct (a_validation_data a); split; congruence.
Qed.

(** C6: with a contamination the parent class accepts, [__init__]
    raises the [check_parameter] error exactly when
    [0 <= dropout_rate < 1] fails, and returns an object exactly when it
    holds; in particular it raises for 1.0 and returns for 0.0. *)
Theorem init_dropout_range (a : init_args) (g : env) (b : Base) :
  base_init (a_contamination a) = Some b ->
  let d := a_dropout_rate a in
  (fst (__init__ a g) = inl ValueError_check_parameter <->
   Float.leb Float.zero d && Float.ltb d Float.one64 = false) /\
  ((exists o, fst (__init__ a g) = inr o) <->
   Float.leb Float.zero d && Float.ltb d Float.one64 = true) /\
  (d = Float.one64 -> fst (__init__ a g) = inl ValueError_check_parameter) /\
  (d = Float.zero -> exists o, fst (__init__ a g) = inr o).
Proof.
  intros Hb d. pose proof (init_outcome a g) as H. rewrite Hb in H.
  unfold in_range in H. fold d in H.
  assert (R1 : Float.leb Float.zero Float.one64
               && Float.ltb Float.one64 Float.one64 = false) by reflexivity.
  assert (R0 : Float.leb Float.zero Float.zero
               && Float.ltb Float.zero Float.one64 = true) by reflexivity.
  destruct (Float.leb Float.zero d && Float.ltb d Float.one64) eqn:E.
  - destruct H as [o Ho].
    repeat split; try congruence; eauto;
      try (intros [o' Ho']; congruence); intros ->; congruence.
  - repeat split; try congruence; eauto;
      try (intros [o' Ho']; congruence); intros ->; congruence.
Qed.

End Constructor.

(** C5 on the reference backend: the defaults with a one-row validation
    set. *)
Lemma init_validation_exclusive_witness :
  exists o,
    fst (__init__ Sim.args_val (Sim.env0 0)) = inr o /\
    validation_data o = Some ([[Float.one]], [0%Z]) /\
    validation_size (hp o) = None.
Proof.
  destruct (init_validation_exclusive Sim.args_val (Sim.env0 0) _ _ eq_refl)
    as (H1 & H2 & _).
  eexists. split; [reflexivity|].
  split; [exact H1 | apply H2; discriminate].
Defined.

(** C6 on the reference backend, for the default arguments. *)
Lemma init_dropout_range_witness :
  exists o, fst (@__init__ Sim.backend default_args (Sim.env0 0)) = inr o.
Proof.
  destruct (init_dropout_range default_args (Sim.env0 0)
              (Float.tenth64, 0%Z) eq_refl) as (_ & [_ H] & _).
  apply H. reflexivity.
Defined.

(** ** The blocks of [fit] *)

(** Unfold the monad and the traced library calls. *)
Ltac unfold_m :=
  unfold check_array_, transform_, predict_, shuffle_, with_rngs,
    attr, field, update, emit, on_env, emit_env, or_raise, when,
    bind, ret, raise, gets, modify in *.

Ltac head_fun f :=
  lazymatch f with
  | ?g _ => head_fun g
  | _ => f
  end.

(** The test a stuck term waits for, also under an application of a
    [match] that returns a computation. *)
Ltac head_disc t :=
  lazymatch t with
  | match ?d with _ => _ end => head_disc d
  | ?f _ =>
      let r := head_fun f in
      lazymatch r with
      | match ?d with _ => _ end => head_disc d
      | _ => t
      end
  | ?x => x
  end.

(** One step of a run recorded in [H]: split on the test the run is
    stuck at, or use what is already known of it. *)
Ltac step_in H :=
  cbn in H;
  lazymatch type of H with
  | ?l = _ =>
      let h := head_disc l in
      tryif constr_eq h l then fail
      else first [ match goal with E : h = _ |- _ => rewrite E in H end
                 | destruct h eqn:? ]
  end.

Ltac run_in H := repeat (step_in H; try discriminate H); cbn in H.

Section Blocks.

Context {B : Backend}.

#[local] Opaque Z.gtb Z.geb.

Lemma fit_validate_inr X w Xc val w1 :
  fit_validate X w = (inr (Xc, val), w1) ->
  check_array X = Some Xc /\
  n_samples_ (self w1) = Some (shape0 Xc) /\
  n_features_ (self w1) = Some (shape1 Xc) /\
  validation_data (self w1) = val /\
  match validation_data (self w) with
  | Some (X_val, y_val) =>
      exists Xv, check_array X_val = Some Xv /\ val = Some (Xv, y_val)
  | None => val = None
  end.
Proof.
  intros H. unfold fit_validate in H. unfold_m. run_in H.
  all: inversion H; subst; cbn; repeat split; eauto.
Qed.

Lemma fit_validate_inl X w e w1 :
  fit_validate X w = (inl e, w1) ->
  e = ValueError_check_array /\
  ((check_array X = None /\ self w1 = self w) \/
   exists X_val y_val, validation_data (self w) = Some (X_val, y_val)
                       /\ check_array X_val = None).
Proof.
  intros H. unfold fit_validate in H. unfold_m. run_in H.
  all: inversion H; subst; cbn; split; eauto.
Qed.

Lemma fit_standardize_inr Xc val w1 Xn w2 :
  fit_standardize Xc val w1 = (inr Xn, w2) ->
  if preprocessing (hp (self w1)) then
    scaler_ (self w2) = Some (scaler_fit Xc) /\
    traverse (scale_row (scaler_fit Xc)) Xc = Some Xn /\
    match validation_data (self w1), val with
    | Some _, Some (Xv, y_val) =>
        exists Xvn, traverse (scale_row (scaler_fit Xc)) Xv = Some Xvn /\
                    validation_data (self w2) = Some (Xvn, y_val)
    | _, _ => validation_data (self w2) = validation_data (self w1)
    end
  else Xn = Xc /\ w2 = w1.
Proof.
  intros H. unfold fit_standardize in H. unfold_m. run_in H.
  all: inversion H; subst; cbn; repeat split; eauto.
Qed.

Lemma fit_standardize_inl Xc val w1 e w2 :
  fit_standardize Xc val w1 = (inl e, w2) ->
  e = ValueError_transform /\ preprocessing (hp (self w1)) = true /\
  (traverse (scale_row (scaler_fit Xc)) Xc = None \/
   exists Xv y_val, val = Some (Xv, y_val) /\
                    traverse (scale_row (scaler_fit Xc)) Xv = None).
Proof.
  intros H. unfold fit_standardize in H. unfold_m. run_in H.
  all: inversion H; subst; cbn; repeat split; eauto.
Qed.

(** The shuffle never raises and leaves the object alone. *)
Lemma fit_shuffle_run Xn w :
  exists X' w', fit_shuffle Xn w = (inr X', w') /\ self w' = self w /\
    match validation_size (hp (self w)) with
    | Some _ => X' = fst (np_shuffle (np_state (genv w)) Xn)
    | None => X' = Xn
    end.
Proof.
  unfold fit_shuffle, shuffle_. unfold_m. cbn.
  destruct (validation_size (hp (self w))); cbn.
  - destruct (np_shuffle (np_state (genv w)) Xn) eqn:E. cbn. eauto.
  - eauto.
Qed.

Lemma fit_check_neurons_run w nf mn :
  n_features_ (self w) = Some nf ->
  np_min (hidden_neurons (hp (self w))) = Some mn ->
  fit_check_neurons w =
    if (mn >? nf)%Z && use_ae (hp (self w))
    then (inl ValueError_neurons, w) else (inr tt, w).
Proof.
  intros Hn Hm. unfold fit_check_neurons. unfold_m. cbn.
  rewrite Hm, Hn. destruct ((mn >? nf)%Z && use_ae (hp (self w))); reflexivity.
Qed.

Lemma fit_check_neurons_inl w e w' :
  fit_check_neurons w = (inl e, w') ->
  w' = w /\
  match e with
  | ValueError_neurons =>
      exists mn nf, np_min (hidden_neurons (hp (self w))) = Some mn /\
                    n_features_ (self w) = Some nf /\
                    (mn >? nf)%Z = true /\ use_ae (hp (self w)) = true
  | ValueError_np_min => np_min (hidden_neurons (hp (self w))) = None
  | AttributeError => n_features_ (self w) = None
  | _ => False
  end.
Proof.
  intros H. unfold fit_check_neurons in H. unfold_m. run_in H.
  all: inversion H; subst; cbn; split; eauto.
  apply andb_prop in Heqb. destruct Heqb. eauto 6.
Qed.

Lemma build_model_self t w r w' :
  _build_model t w = (r, w') -> self w' = self w.
Proof.
  intros H. unfold _build_model in H. unfold_m. run_in H.
  all: inversion H; subst; reflexivity.
Qed.

Lemma fit_center_skip Xn w cc :
  c (self w) = Some cc -> fit_center Xn w = (inr tt, w).
Proof.
  intros Hc. unfold fit_center. unfold_m. cbn. rewrite Hc. reflexivity.
Qed.

Lemma fit_center_inr Xn w w' :
  c (self w) = None -> fit_center Xn w = (inr tt, w') ->
  exists m0,
    c (self w') = Some (C_array (clamp_c eps_default (mean_embedding m0 Xn))).
Proof.
  intros Hc H. unfold fit_center, _init_c, mask_assign_c, _build_model in H.
  unfold_m. run_in H.
  all: inversion H; subst; cbn; eexists; reflexivity.
Qed.

Lemma fit_train_inr Xn w w' :
  fit_train Xn w = (inr tt, w') ->
  exists m h, model_ (self w') = Some m /\ history_ (self w') = Some h.
Proof.
  intros H. unfold fit_train, _build_model in H. unfold_m. run_in H.
  all: inversion H; subst; cbn; eauto.
Qed.

Lemma fit_train_inl Xn w e w' :
  fit_train Xn w = (inl e, w') ->
  history_ (self w') = history_ (self w) /\
  decision_scores_ (self w') = decision_scores_ (self w).
Proof.
  intros H. unfold fit_train, _build_model in H. unfold_m. run_in H.
  all: inversion H; subst; cbn; auto.
Qed.

Lemma fit_score_run Xc Xn w m :
  model_ (self w) = Some m -> standardized (self w) Xc Xn ->
  exists w',
    fit_score Xc w = (inr tt, w') /\
    self w' =
      set_base (process_decision_scores (base (self w))
                  (map (keras_forward m) Xn))
        (set_decision_scores_ (map (keras_forward m) Xn) (self w)).
Proof.
  intros Hm Hs. unfold standardized in Hs.
  unfold fit_score. unfold_m. cbn.
  destruct (preprocessing (hp (self w))).
  - destruct Hs as (sc & Hsc & Ht). cbn. rewrite Hsc. cbn. rewrite Ht. cbn.
    rewrite Hm. cbn. eauto.
  - subst Xn. cbn. rewrite Hm. cbn. eauto.
Qed.

Lemma decision_function_run X Xc Xn w m h :
  model_ (self w) = Some m -> history_ (self w) = Some h ->
  check_array X = Some Xc -> standardized (self w) Xc Xn ->
  exists w',
    decision_function X w = (inr (map (keras_forward m) Xn), w') /\
    self w' = self w.
Proof.
  intros Hm Hh Hx Hs. unfold standardized in Hs.
  unfold decision_function, check_is_fitted. unfold_m. cbn.
  rewrite Hm, Hh. cbn. rewrite Hx. cbn.
  destruct (preprocessing (hp (self w))).
  - destruct Hs as (sc & Hsc & Ht). cbn. rewrite Hsc. cbn. rewrite Ht. cbn.
    rewrite Hm. cbn. eauto.
  - subst Xn. cbn. rewrite Hm. cbn. eauto.
Qed.

(** [check_is_fitted] fails before anything else is done. *)
Lemma decision_function_unfitted X w :
  model_ (self w) = None \/ history_ (self w) = None ->
  decision_function X w = (inl NotFittedError, w).
Proof.
  intros H. unfold decision_function, check_is_fitted. unfold_m. cbn.
  destruct H as [H|H]; rewrite H; [|destruct (model_ (self w))];
    reflexivity.
Qed.

End Blocks.

(** ** Frames: what each block leaves alone *)

Ltac frame :=
  unfold fit, fit_validate, fit_standardize, fit_shuffle,
    fit_check_neurons, fit_center, fit_train, fit_score, _build_model,
    _init_c, mask_assign_c, decision_function, check_is_fitted,
    check_array_, transform_, predict_;
  pres.

Section Frames.

Context {B : Backend}.

Lemma fit_preserves_hp X : preserves hp (fit X).
Proof. frame. Qed.

Lemma decision_function_preserves {T} (f : DeepSVDD -> T) X :
  preserves f (decision_function X).
Proof. frame. Qed.

Lemma validate_preserves_hp X : preserves hp (fit_validate X).
Proof. frame. Qed.

Lemma validate_preserves_fitted X :
  preserves (fun o => (c o, model_ o, history_ o, decision_scores_ o,
                       scaler_ o))
    (fit_validate X).
Proof. frame. Qed.

Lemma standardize_preserves X val :
  preserves (fun o => (hp o, c o, model_ o, history_ o, decision_scores_ o,
                       n_samples_ o, n_features_ o))
    (fit_standardize X val).
Proof. frame. Qed.

Lemma check_neurons_preserves {T} (f : DeepSVDD -> T) :
  preserves f fit_check_neurons.
Proof. frame. Qed.

Lemma center_preserves Xn :
  preserves (fun o => (hp o, scaler_ o, history_ o, decision_scores_ o,
                       validation_data o, n_samples_ o, n_features_ o))
    (fit_center Xn).
Proof. frame. Qed.

Lemma train_preserves Xn :
  preserves (fun o => (hp o, c o, scaler_ o, decision_scores_ o,
                       validation_data o, n_samples_ o, n_features_ o))
    (fit_train Xn).
Proof. frame. Qed.

Lemma score_preserves X :
  preserves (fun o => (hp o, c o, scaler_ o, model_ o, history_ o,
                       validation_data o, n_samples_ o, n_features_ o))
    (fit_score X).
Proof. frame. Qed.

Lemma standardized_ext o o' Xc Xn :
  hp o' = hp o -> scaler_ o' = scaler_ o ->
  standardized o Xc Xn -> standardized o' Xc Xn.
Proof. unfold standardized. intros -> ->. auto. Qed.

End Frames.

(** ** [fit] as the sequence of its blocks *)

Section FitRuns.

Context {B : Backend}.

Lemma check_neurons_world r w w' :
  fit_check_neurons w = (r, w') -> w' = w.
Proof.
  intros H. unfold fit_check_neurons in H. unfold_m. run_in H.
  all: now inversion H.
Qed.

(** The blocks of a call that returned. *)
Lemma fit_inr_blocks X w w' :
  fit X w = (inr tt, w') ->
  exists Xc val w1 Xn w2 X' w3 w5 w6,
    fit_validate X w = (inr (Xc, val), w1) /\
    fit_standardize Xc val w1 = (inr Xn, w2) /\
    fit_shuffle Xn w2 = (inr X', w3) /\
    fit_check_neurons w3 = (inr tt, w3) /\
    fit_center X' w3 = (inr tt, w5) /\
    fit_train X' w5 = (inr tt, w6) /\
    fit_score Xc w6 = (inr tt, w').
Proof.
  unfold fit. intros H.
  apply bind_inr in H. destruct H as ([Xc val] & w1 & H1 & H).
  apply bind_inr in H. destruct H as (Xn & w2 & H2 & H).
  apply bind_inr in H. destruct H as (X' & w3 & H3 & H).
  apply bind_inr in H. destruct H as ([] & w4 & H4 & H).
  pose proof (check_neurons_world _ _ _ H4). subst w4.
  apply bind_inr in H. destruct H as ([] & w5 & H5 & H).
  apply bind_inr in H. destruct H as ([] & w6 & H6 & H).
  cbn in *. exists Xc, val, w1, Xn, w2, X', w3, w5, w6.
  repeat split; assumption.
Qed.

(** The blocks of a call that raised: the block that raised, after the
    blocks before it returned. *)
Inductive raised_in (X : matrix) (w : world) (e : exn) (w' : world)
  : Prop :=
| in_validate :
    fit_validate X w = (inl e, w') -> raised_in X w e w'
| in_standardize Xc val w1 :
    fit_validate X w = (inr (Xc, val), w1) ->
    fit_standardize Xc val w1 = (inl e, w') -> raised_in X w e w'
| in_check Xc val w1 Xn w2 X' :
    fit_validate X w = (inr (Xc, val), w1) ->
    fit_standardize Xc val w1 = (inr Xn, w2) ->
    fit_shuffle Xn w2 = (inr X', w') ->
    fit_check_neurons w' = (inl e, w') -> raised_in X w e w'
| in_center Xc val w1 Xn w2 X' w3 :
    fit_validate X w = (inr (Xc, val), w1) ->
    fit_standardize Xc val w1 = (inr Xn, w2) ->
    fit_shuffle Xn w2 = (inr X', w3) ->
    fit_check_neurons w3 = (inr tt, w3) ->
    fit_center X' w3 = (inl e, w') -> raised_in X w e w'
| in_train Xc val w1 Xn w2 X' w3 w5 :
    fit_validate X w = (inr (Xc, val), w1) ->
    fit_standardize Xc val w1 = (inr Xn, w2) ->
    fit_shuffle Xn w2 = (inr X', w3) ->
    fit_check_neurons w3 = (inr tt, w3) ->
    fit_center X' w3 = (inr tt, w5) ->
    fit_train X' w5 = (inl e, w') -> raised_in X w e w'
| in_score Xc val w1 Xn w2 X' w3 w5 w6 :
    fit_validate X w = (inr (Xc, val), w1) ->
    fit_standardize Xc val w1 = (inr Xn, w2) ->
    fit_shuffle Xn w2 = (inr X', w3) ->
    fit_check_neurons w3 = (inr tt, w3) ->
    fit_center X' w3 = (inr tt, w5) ->
    fit_train X' w5 = (inr tt, w6) ->
    fit_score Xc w6 = (inl e, w') -> raised_in X w e w'.

Lemma fit_inl_blocks X w e w' :
  fit X w = (inl e, w') -> raised_in X w e w'.
Proof.
  unfold fit. intros H.
  apply bind_inl in H. destruct H as [H|([Xc val] & w1 & H1 & H)].
  { now apply in_validate. }
  apply bind_inl in H. destruct H as [H|(Xn & w2 & H2 & H)].
  { eapply in_standardize; eauto. }
  apply bind_inl in H. destruct H as [H|(X' & w3 & H3 & H)].
  { destruct (fit_shuffle_run Xn w2) as (? & ? & E & _). congruence. }
  apply bind_inl in H. destruct H as [H|([] & w4 & H4 & H)].
  { pose proof (check_neurons_world _ _ _ H). subst w'.
    eapply in_check; eauto. }
  pose proof (check_neurons_world _ _ _ H4). subst w4.
  apply bind_inl in H. destruct H as [H|([] & w5 & H5 & H)].
  { eapply in_center; eauto. }
  apply bind_inl in H. destruct H as [H|([] & w6 & H6 & H)].
  { eapply in_train; eauto. }
  eapply in_score; eauto.
Qed.

(** What a returned call leaves in the object. *)
Lemma fit_inr X w w' :
  fit X w = (inr tt, w') ->
  exists Xc Xn m h,
    check_array X = Some Xc /\
    hp (self w') = hp (self w) /\
    standardized (self w') Xc Xn /\
    model_ (self w') = Some m /\
    history_ (self w') = Some h /\
    decision_scores_ (self w') = Some (map (keras_forward m) Xn) /\
    n_samples_ (self w') = Some (shape0 Xc) /\
    n_features_ (self w') = Some (shape1 Xc).
Proof.
  intros H.
  destruct (fit_inr_blocks _ _ _ H)
    as (Xc & val & w1 & Xn & w2 & X' & w3 & w5 & w6
        & H1 & H2 & H3 & H4 & H5 & H6 & H7).
  pose proof (fit_validate_inr _ _ _ _ _ H1) as (Hx & Hns & Hnf & _).
  pose proof (validate_preserves_hp _ _ _ _ H1) as Hp1.
  pose proof (standardize_preserves _ _ _ _ _ H2) as F2.
  pose proof (fit_standardize_inr _ _ _ _ _ H2) as S2.
  destruct (fit_shuffle_run Xn w2) as (X'' & w3' & E3 & Hs3 & _).
  rewrite H3 in E3. inversion E3; subst X'' w3'. clear E3.
  pose proof (center_preserves _ _ _ _ H5) as F5.
  pose proof (train_preserves _ _ _ _ H6) as F6.
  destruct (fit_train_inr _ _ _ H6) as (m & h & Hm & Hh).
  cbn in F2, F5, F6.
  assert (Fhp : hp (self w2) = hp (self w1)) by congruence.
  assert (St : standardized (self w6) Xc Xn).
  { apply standardized_ext with (o := self w2);
      [congruence | congruence |].
    unfold standardized. rewrite Fhp.
    destruct (preprocessing (hp (self w1))) eqn:Ep.
    - destruct S2 as (Hsc & Ht & _). eauto.
    - tauto. }
  destruct (fit_score_run Xc Xn w6 m Hm St) as (w'' & E7 & Hw).
  rewrite H7 in E7. inversion E7; subst w''. clear E7.
  exists Xc, Xn, m, h. rewrite Hw. cbn.
  repeat split; try congruence.
  eapply standardized_ext; [| |exact St]; reflexivity.
Qed.

End FitRuns.

(** ** Exceptions and events of the blocks *)

Ltac unfold_blocks :=
  unfold fit, fit_validate, fit_standardize, fit_shuffle,
    fit_check_neurons, fit_center, fit_train, fit_score, _build_model,
    _init_c, mask_assign_c, decision_function, check_is_fitted,
    check_array_, transform_, predict_.

Section Classes.

Context {B : Backend}.

(** Only the width check raises its error. *)
Lemma center_not_neurons Xn :
  maintains always any_event not_neurons (fit_center Xn).
Proof. unfold_blocks. unfold always, any_event, not_neurons. maint. Qed.

Lemma train_not_neurons Xn :
  maintains always any_event not_neurons (fit_train Xn).
Proof. unfold_blocks. unfold always, any_event, not_neurons. maint. Qed.

Lemma score_not_neurons X :
  maintains always any_event not_neurons (fit_score X).
Proof. unfold_blocks. unfold always, any_event, not_neurons. maint. Qed.

(** No network is built before the width check. *)
Lemma validate_no_build X :
  maintains always no_build any_exn (fit_validate X).
Proof. unfold_blocks. unfold always, no_build, any_exn. maint. Qed.

Lemma standardize_no_build X val :
  maintains always no_build any_exn (fit_standardize X val).
Proof. unfold_blocks. unfold always, no_build, any_exn. maint. Qed.

Lemma shuffle_no_build X :
  maintains always no_build any_exn (fit_shuffle X).
Proof. unfold_blocks. unfold always, no_build, any_exn. maint. Qed.

End Classes.

(** ** Row-wise operations *)

Lemma traverse_length {A C} (f : A -> option C) l l' :
  traverse f l = Some l' -> length l' = length l.
Proof.
  revert l'. induction l as [|a l IH]; intros l' H; simpl in H.
  - now inversion H.
  - destruct (f a); [|discriminate].
    destruct (traverse f l) as [bs|]; [|discriminate].
    inversion H; subst. simpl. now rewrite (IH bs).
Qed.

Lemma traverse_nth {A C} (f : A -> option C) l l' i a :
  traverse f l = Some l' -> nth_error l i = Some a ->
  exists b, f a = Some b /\ nth_error l' i = Some b.
Proof.
  revert l' i. induction l as [|x l IH]; intros l' i H Hi; simpl in H.
  - destruct i; discriminate.
  - destruct (f x) as [y|] eqn:Ey; [|discriminate].
    destruct (traverse f l) as [bs|]; [|discriminate].
    inversion H; subst. destruct i as [|i]; simpl in *.
    + inversion Hi; subst. eauto.
    + eapply IH; eauto.
Qed.

Lemma traverse_single {A C} (f : A -> option C) a b :
  f a = Some b -> traverse f [a] = Some [b].
Proof. simpl. now intros ->. Qed.

Section FitFacts.

Context {B : Backend}.

(** After the first six blocks the object is ready for scoring. *)
Lemma blocks_ready X w Xc val w1 Xn w2 X' w3 w5 w6 :
  fit_validate X w = (inr (Xc, val), w1) ->
  fit_standardize Xc val w1 = (inr Xn, w2) ->
  fit_shuffle Xn w2 = (inr X', w3) ->
  fit_center X' w3 = (inr tt, w5) ->
  fit_train X' w5 = (inr tt, w6) ->
  standardized (self w6) Xc Xn /\
  exists m h, model_ (self w6) = Some m /\ history_ (self w6) = Some h.
Proof.
  intros H1 H2 H3 H5 H6.
  pose proof (standardize_preserves _ _ _ _ _ H2) as F2.
  pose proof (fit_standardize_inr _ _ _ _ _ H2) as S2.
  destruct (fit_shuffle_run Xn w2) as (X'' & w3' & E3 & Hs3 & _).
  rewrite H3 in E3. inversion E3; subst X'' w3'. clear E3.
  pose proof (center_preserves _ _ _ _ H5) as F5.
  pose proof (train_preserves _ _ _ _ H6) as F6.
  cbn in F2, F5, F6.
  assert (Fhp : hp (self w2) = hp (self w1)) by congruence.
  split; [|exact (fit_train_inr _ _ _ H6)].
  apply standardized_ext with (o := self w2); [congruence | congruence |].
  unfold standardized. rewrite Fhp.
  destruct (preprocessing (hp (self w1))) eqn:Ep.
  - destruct S2 as (Hsc & Ht & _). eauto.
  - tauto.
Qed.

(** A call that raises has not reached the assignments of [history_]
    and [decision_scores_]. *)
Lemma fit_inl_unfitted X w e w' :
  fit X w = (inl e, w') ->
  history_ (self w') = history_ (self w) /\
  decision_scores_ (self w') = decision_scores_ (self w).
Proof.
  intros H. destruct (fit_inl_blocks _ _ _ _ H)
    as [H1|Xc val w1 H1 H2|Xc val w1 Xn w2 X' H1 H2 H3 H4
       |Xc val w1 Xn w2 X' w3 H1 H2 H3 H4 H5
       |Xc val w1 Xn w2 X' w3 w5 H1 H2 H3 H4 H5 H6
       |Xc val w1 Xn w2 X' w3 w5 w6 H1 H2 H3 H4 H5 H6 H7].
  - pose proof (validate_preserves_fitted _ _ _ _ H1) as F1. cbn in F1.
    split; congruence.
  - pose proof (validate_preserves_fitted _ _ _ _ H1) as F1.
    pose proof (standardize_preserves _ _ _ _ _ H2) as F2. cbn in F1, F2.
    split; congruence.
  - pose proof (validate_preserves_fitted _ _ _ _ H1) as F1.
    pose proof (standardize_preserves _ _ _ _ _ H2) as F2.
    destruct (fit_shuffle_run Xn w2) as (X'' & w3' & E3 & Hs3 & _).
    rewrite H3 in E3. inversion E3; subst X'' w3'.
    cbn in F1, F2. split; congruence.
  - pose proof (validate_preserves_fitted _ _ _ _ H1) as F1.
    pose proof (standardize_preserves _ _ _ _ _ H2) as F2.
    destruct (fit_shuffle_run Xn w2) as (X'' & w3' & E3 & Hs3 & _).
    rewrite H3 in E3. inversion E3; subst X'' w3'.
    pose proof (center_preserves _ _ _ _ H5) as F5.
    cbn in F1, F2, F5. split; congruence.
  - pose proof (validate_preserves_fitted _ _ _ _ H1) as F1.
    pose proof (standardize_preserves _ _ _ _ _ H2) as F2.
    destruct (fit_shuffle_run Xn w2) as (X'' & w3' & E3 & Hs3 & _).
    rewrite H3 in E3. inversion E3; subst X'' w3'.
    pose proof (center_preserves _ _ _ _ H5) as F5.
    destruct (fit_train_inl _ _ _ _ H6) as (T1 & T2).
    cbn in F1, F2, F5. split; congruence.
  - destruct (blocks_ready _ _ _ _ _ _ _ _ _ _ _ H1 H2 H3 H5 H6)
      as (St & m & h & Hm & Hh).
    destruct (fit_score_run Xc Xn w6 m Hm St) as (w'' & E7 & _).
    congruence.
Qed.

End FitFacts.

(** * The claims *)

Section Claims.

Context {B : Backend}.

(** ** Scoring before and after [fit] *)

Lemma construct_unfitted a g w :
  construct a g = inr w ->
  model_ (self w) = None /\ history_ (self w) = None.
Proof.
  unfold construct.
  destruct (__init__ a g) as [[e|o] g'] eqn:Hi; [discriminate|].
  intros H. inversion H; subst. cbn. revert Hi.
  unfold __init__, bind, or_raise, check_parameter.
  destruct (base_init (a_contamination a)); [|discriminate].
  cbn. destruct (a_random_state a); cbn;
    destruct (in_range _ _ _ _ _); cbn; intros Hi; inversion Hi; subst;
    cbn; auto.
Qed.

Lemma never_fitted_history w :
  never_fitted w -> history_ (self w) = None.
Proof.
  induction 1 as [a g w Hc|w X e w' _ IH Hf|w X r w' _ IH Hd].
  - apply (construct_unfitted _ _ _ Hc).
  - destruct (fit_inl_unfitted _ _ _ _ Hf) as [Hh _]. congruence.
  - rewrite (decision_function_preserves history_ X _ _ _ Hd). exact IH.
Qed.

(** C7: on an object on which no call of [fit] has returned (new, or
    after calls of [fit] that raised), [decision_function] raises the
    unfitted-state error and leaves the world as it was: nothing was
    validated, standardized or predicted. *)
Theorem decision_function_before_fit (w : world) (X : matrix) :
  never_fitted w ->
  decision_function X w = (inl NotFittedError, w).
Proof.
  intros H. apply decision_function_unfitted. right.
  now apply never_fitted_history.
Qed.

(** C2: when [fit X] returns, [decision_scores_] has one score per row
    of the validated [X]; the score at position [i] is the output of
    the fitted model on row [i] of [X] as standardized by the fitted
    object, whatever the shuffle did; and [decision_function X] returns
    exactly these scores. *)
Theorem fit_scores_match (X : matrix) (w w' : world) :
  fit X w = (inr tt, w') ->
  exists Xc m ds,
    check_array X = Some Xc /\
    model_ (self w') = Some m /\
    decision_scores_ (self w') = Some ds /\
    length ds = length Xc /\
    (forall i r, nth_error Xc i = Some r ->
       exists rn, standardized (self w') [r] [rn] /\
                  nth_error ds i = Some (keras_forward m rn)) /\
    exists w'', decision_function X w' = (inr ds, w'').
Proof.
  intros H.
  destruct (fit_inr _ _ _ H)
    as (Xc & Xn & m & h & Hx & Hp & St & Hm & Hh & Hd & _).
  exists Xc, m, (map (keras_forward m) Xn).
  assert (Hlen : length Xn = length Xc).
  { unfold standardized in St. destruct (preprocessing _).
    - destruct St as (sc & _ & Ht). now apply traverse_length in Ht.
    - now subst. }
  repeat split; auto.
  - now rewrite length_map.
  - intros i r Hi. unfold standardized in *.
    destruct (preprocessing (hp (self w'))).
    + destruct St as (sc & Hsc & Ht).
      destruct (traverse_nth _ _ _ _ _ Ht Hi) as (rn & Hr & Hn).
      exists rn. split.
      * exists sc. split; [exact Hsc | now apply traverse_single].
      * now apply map_nth_error.
    + subst Xn. exists r. split; [reflexivity | now apply map_nth_error].
  - destruct (decision_function_run X Xc Xn w' m h Hm Hh Hx St)
      as (w'' & Hdf & _).
    eauto.
Qed.

End Claims.

(** C7 on the reference backend: a new default estimator. *)
Lemma decision_function_before_fit_witness :
  construct default_args (Sim.env0 1) = inr Sim.fresh /\
  decision_function Sim.X_2x1 Sim.fresh = (inl NotFittedError, Sim.fresh).
Proof.
  split; [reflexivity|].
  apply decision_function_before_fit.
  apply (nf_new default_args (Sim.env0 1)). reflexivity.
Defined.

(** C2 on the reference backend: the default estimator fitted on two
    samples, in a process whose shuffle reverses the rows. *)
Lemma fit_scores_match_witness :
  fit Sim.X_2x1 Sim.fresh = (inr tt, Sim.fitted) /\
  exists Xc m ds,
    Sim.check_array Sim.X_2x1 = Some Xc /\
    model_ (self Sim.fitted) = Some m /\
    decision_scores_ (self Sim.fitted) = Some ds /\
    length ds = length Xc /\
    (forall i r, nth_error Xc i = Some r ->
       exists rn, standardized (self Sim.fitted) [r] [rn] /\
                  nth_error ds i = Some (Sim.forward m rn)) /\
    exists w'', decision_function Sim.X_2x1 Sim.fitted = (inr ds, w'').
Proof.
  assert (H : fit Sim.X_2x1 Sim.fresh = (inr tt, Sim.fitted))
    by (unfold Sim.fitted, Sim.after_fit; apply run_eq; reflexivity).
  split; [exact H|].
  exact (fit_scores_match Sim.X_2x1 Sim.fresh Sim.fitted H).
Defined.

(** ** A call of [fit] that raises *)

Section Raising.

Context {B : Backend}.

(** What the blocks before the width check have done. *)
Lemma prefix_facts X w Xc val w1 Xn w2 X' w3 :
  fit_validate X w = (inr (Xc, val), w1) ->
  fit_standardize Xc val w1 = (inr Xn, w2) ->
  fit_shuffle Xn w2 = (inr X', w3) ->
  check_array X = Some Xc /\
  hp (self w3) = hp (self w) /\
  n_samples_ (self w3) = Some (shape0 Xc) /\
  n_features_ (self w3) = Some (shape1 Xc) /\
  (preprocessing (hp (self w)) = true ->
   scaler_ (self w3) = Some (scaler_fit Xc)) /\
  c (self w3) = c (self w) /\
  model_ (self w3) = model_ (self w) /\
  exists evs, trace (genv w3) = trace (genv w) ++ evs /\ Forall no_build evs.
Proof.
  intros H1 H2 H3.
  pose proof (fit_validate_inr _ _ _ _ _ H1) as (Hx & Hns & Hnf & _).
  pose proof (validate_preserves_hp _ _ _ _ H1) as Hp1.
  pose proof (validate_preserves_fitted _ _ _ _ H1) as F1.
  pose proof (standardize_preserves _ _ _ _ _ H2) as F2.
  pose proof (fit_standardize_inr _ _ _ _ _ H2) as S2.
  destruct (fit_shuffle_run Xn w2) as (X'' & w3' & E3 & Hs3 & _).
  rewrite H3 in E3. inversion E3; subst X'' w3'. clear E3.
  cbn in F1, F2.
  destruct (validate_no_build X w _ _ Logic.I H1) as (_ & (e1 & T1 & P1) & _).
  destruct (standardize_no_build Xc val w1 _ _ Logic.I H2)
    as (_ & (e2 & T2 & P2) & _).
  destruct (shuffle_no_build Xn w2 _ _ Logic.I H3)
    as (_ & (e3 & T3 & P3) & _).
  rewrite Hs3. repeat split; try congruence.
  - intros Hpre. rewrite <- Hp1 in Hpre. rewrite Hpre in S2. tauto.
  - exists (e1 ++ e2 ++ e3). rewrite T3, T2, T1, <- !app_assoc.
    split; [reflexivity|]. repeat (apply Forall_app; split); assumption.
Qed.

(** The width error comes from the width check, after the blocks before
    it returned. *)
Lemma fit_neurons_blocks X w w' :
  fit X w = (inl ValueError_neurons, w') ->
  exists Xc val w1 Xn w2 X',
    fit_validate X w = (inr (Xc, val), w1) /\
    fit_standardize Xc val w1 = (inr Xn, w2) /\
    fit_shuffle Xn w2 = (inr X', w') /\
    fit_check_neurons w' = (inl ValueError_neurons, w').
Proof.
  intros H. destruct (fit_inl_blocks _ _ _ _ H)
    as [H1|Xc val w1 H1 H2|Xc val w1 Xn w2 X' H1 H2 H3 H4
       |Xc val w1 Xn w2 X' w3 H1 H2 H3 H4 H5
       |Xc val w1 Xn w2 X' w3 w5 H1 H2 H3 H4 H5 H6
       |Xc val w1 Xn w2 X' w3 w5 w6 H1 H2 H3 H4 H5 H6 H7].
  - destruct (fit_validate_inl _ _ _ _ H1). discriminate.
  - destruct (fit_standardize_inl _ _ _ _ _ H2). discriminate.
  - exists Xc, val, w1, Xn, w2, X'. auto.
  - destruct (center_not_neurons X' w3 _ _ Logic.I H5) as (_ & _ & N).
    now destruct (N _ eq_refl).
  - destruct (train_not_neurons X' w5 _ _ Logic.I H6) as (_ & _ & N).
    now destruct (N _ eq_refl).
  - destruct (score_not_neurons Xc w6 _ _ Logic.I H7) as (_ & _ & N).
    now destruct (N _ eq_refl).
Qed.

(** A rejected [X] leaves the object alone. *)
Lemma fit_rejected X w r w' :
  check_array X = None -> fit X w = (r, w') ->
  r = inl ValueError_check_array /\ self w' = self w.
Proof.
  intros Hx. unfold fit, fit_validate. unfold_m. cbn. rewrite Hx. cbn.
  intros H. now inversion H.
Qed.

(** C3, amended: when [fit] raises, [history_] and [decision_scores_]
    are as before the call; when [X] itself is rejected by the input
    validation, the whole object is as before the call; when the
    autoencoder/hidden-width error is raised, the center [c] and
    [model_] are as before the call, while [n_samples_] and
    [n_features_] hold the shape of [X] and, with preprocessing,
    [scaler_] holds the scaler fitted on [X]. *)
Theorem fit_raise_state (X : matrix) (w w' : world) (e : exn) :
  fit X w = (inl e, w') ->
  history_ (self w') = history_ (self w) /\
  decision_scores_ (self w') = decision_scores_ (self w) /\
  (check_array X = None -> self w' = self w) /\
  (e = ValueError_neurons ->
   c (self w') = c (self w) /\
   model_ (self w') = model_ (self w) /\
   exists Xc, check_array X = Some Xc /\
     n_samples_ (self w') = Some (shape0 Xc) /\
     n_features_ (self w') = Some (shape1 Xc) /\
     (preprocessing (hp (self w)) = true ->
      scaler_ (self w') = Some (scaler_fit Xc))).
Proof.
  intros H. destruct (fit_inl_unfitted _ _ _ _ H) as (Hh & Hd).
  split; [exact Hh|]. split; [exact Hd|]. split.
  - intros Hx. now destruct (fit_rejected _ _ _ _ Hx H).
  - intros ->.
    destruct (fit_neurons_blocks X w w' H)
      as (Xc & val & w1 & Xn & w2 & X' & H1 & H2 & H3 & _).
    destruct (prefix_facts _ _ _ _ _ _ _ _ _ H1 H2 H3)
      as (Hx & _ & Hns & Hnf & Hsc & Hc & Hm & _).
    split; [exact Hc|]. split; [exact Hm|]. exists Xc. auto.
Qed.

End Raising.

(** C3, as stated, fails: an autoencoder with hidden widths [20, 15]
    fitted on one sample of ten features raises the width error, and
    afterwards the object has [n_samples_], [n_features_] and [scaler_],
    which it did not have before the call. *)
Lemma fit_failure_leaves_attributes :
  fst (fit Sim.X_1x10 Sim.fresh_ae) = inl ValueError_neurons /\
  (n_samples_ (self Sim.fresh_ae) = None /\
   n_features_ (self Sim.fresh_ae) = None /\
   scaler_ (self Sim.fresh_ae) = None) /\
  n_samples_ (self Sim.failed_ae) = Some 1%Z /\
  n_features_ (self Sim.failed_ae) = Some 10%Z /\
  scaler_ (self Sim.failed_ae) = Some 10%nat.
Proof. repeat split; reflexivity. Qed.

(** The amended C3 on the reference backend, same call. *)
Lemma fit_raise_state_witness :
  fit Sim.X_1x10 Sim.fresh_ae = (inl ValueError_neurons, Sim.failed_ae) /\
  history_ (self Sim.failed_ae) = history_ (self Sim.fresh_ae) /\
  decision_scores_ (self Sim.failed_ae)
  = decision_scores_ (self Sim.fresh_ae) /\
  (Sim.check_array Sim.X_1x10 = None ->
   self Sim.failed_ae = self Sim.fresh_ae) /\
  (ValueError_neurons = ValueError_neurons ->
   c (self Sim.failed_ae) = c (self Sim.fresh_ae) /\
   model_ (self Sim.failed_ae) = model_ (self Sim.fresh_ae) /\
   exists Xc, Sim.check_array Sim.X_1x10 = Some Xc /\
     n_samples_ (self Sim.failed_ae) = Some (shape0 Xc) /\
     n_features_ (self Sim.failed_ae) = Some (shape1 Xc) /\
     (preprocessing (hp (self Sim.fresh_ae)) = true ->
      scaler_ (self Sim.failed_ae) = Some (length (hd [] Xc)))).
Proof.
  assert (H : fit Sim.X_1x10 Sim.fresh_ae
              = (inl ValueError_neurons, Sim.failed_ae))
    by (unfold Sim.failed_ae, Sim.after_fit; apply run_eq; reflexivity).
  split; [exact H|].
  exact (fit_raise_state Sim.X_1x10 Sim.fresh_ae Sim.failed_ae _ H).
Defined.

Section WidthCheck.

Context {B : Backend}.

(** An accepted input reaches the width check. *)
Lemma accepted_reaches_check X Xc w :
  accepted (self w) X Xc ->
  exists val w1 Xn w2 X' w3,
    fit_validate X w = (inr (Xc, val), w1) /\
    fit_standardize Xc val w1 = (inr Xn, w2) /\
    fit_shuffle Xn w2 = (inr X', w3).
Proof.
  intros (Hx & Ht & Hv).
  destruct (fit_validate X w) as [[e|[Xc' val]] w1] eqn:H1.
  { destruct (fit_validate_inl _ _ _ _ H1) as (_ & [[Hn _]|(Xv & yv & Hd & Hn)]).
    - congruence.
    - destruct (Hv _ _ Hd) as (? & ? & _). congruence. }
  pose proof (fit_validate_inr _ _ _ _ _ H1) as (Hx' & _ & _ & _ & Hval).
  assert (Xc' = Xc) by congruence. subst Xc'.
  pose proof (validate_preserves_hp _ _ _ _ H1) as Hp1.
  destruct (fit_standardize Xc val w1) as [[e|Xn] w2] eqn:H2.
  { destruct (fit_standardize_inl _ _ _ _ _ H2)
      as (_ & Hpre & [Hn|(Xv & yv & Hval' & Hn)]).
    - rewrite Hp1 in Hpre. now destruct (Ht Hpre).
    - rewrite Hp1 in Hpre. subst val.
      destruct (validation_data (self w)) as [[X_val y_val]|] eqn:Hd;
        [|discriminate].
      destruct Hval as (Xv' & Hc' & Heq). inversion Heq; subst.
      destruct (Hv _ _ eq_refl) as (Xv'' & Hc'' & Hok).
      assert (Xv'' = Xv') by congruence. subst. now destruct (Hok Hpre). }
  destruct (fit_shuffle_run Xn w2) as (X' & w3 & H3 & _).
  exists val, w1, Xn, w2, X', w3. auto.
Qed.

(** C4: for an accepted input and hidden widths of minimum [mn]: with
    [use_ae], [fit] raises the width error exactly when [mn] is strictly
    greater than the feature count; without [use_ae] it never raises it;
    and whenever it is raised, [model_] is as before the call and no
    network was built during the call. *)
Theorem fit_neurons_check (X Xc : matrix) (w : world) (mn : Z) :
  accepted (self w) X Xc ->
  np_min (hidden_neurons (hp (self w))) = Some mn ->
  (use_ae (hp (self w)) = true ->
   ((mn > shape1 Xc)%Z <->
    exists w', fit X w = (inl ValueError_neurons, w'))) /\
  (use_ae (hp (self w)) = false ->
   forall w', fit X w <> (inl ValueError_neurons, w')) /\
  (forall w', fit X w = (inl ValueError_neurons, w') ->
     model_ (self w') = model_ (self w) /\
     exists evs, trace (genv w') = trace (genv w) ++ evs
                 /\ Forall no_build evs).
Proof.
  intros Hacc Hmn.
  assert (Raised : forall w', fit X w = (inl ValueError_neurons, w') ->
            use_ae (hp (self w)) = true /\ (mn > shape1 Xc)%Z /\
            model_ (self w') = model_ (self w) /\
            exists evs, trace (genv w') = trace (genv w) ++ evs
                        /\ Forall no_build evs).
  { intros w' H.
    destruct (fit_neurons_blocks X w w' H)
      as (Xc' & val & w1 & Xn & w2 & X' & H1 & H2 & H3 & H4).
    destruct (prefix_facts _ _ _ _ _ _ _ _ _ H1 H2 H3)
      as (Hx & Hp & _ & Hnf & _ & _ & Hm & Ht).
    destruct Hacc as (Hx' & _).
    assert (Xc' = Xc) by congruence. subst Xc'.
    destruct (fit_check_neurons_inl _ _ _ H4)
      as (_ & mn' & nf & Hmn' & Hnf' & Hgt & Hae).
    rewrite Hp in Hmn', Hae.
    assert (mn' = mn) by congruence. assert (nf = shape1 Xc) by congruence.
    subst. repeat split; auto. apply Z.gtb_lt in Hgt. lia. }
  split; [|split].
  - intros Hae. split.
    + intros Hgt.
      destruct (accepted_reaches_check _ _ _ Hacc)
        as (val & w1 & Xn & w2 & X' & w3 & H1 & H2 & H3).
      destruct (prefix_facts _ _ _ _ _ _ _ _ _ H1 H2 H3)
        as (_ & Hp & _ & Hnf & _).
      exists w3. unfold fit.
      rewrite (bind_run _ _ _ _ _ H1). cbn [fst snd].
      rewrite (bind_run _ _ _ _ _ H2), (bind_run _ _ _ _ _ H3).
      apply bind_raise.
      rewrite (fit_check_neurons_run w3 (shape1 Xc) mn Hnf);
        [|now rewrite Hp].
      rewrite Hp, Hae.
      replace (mn >? shape1 Xc)%Z with true; [reflexivity|].
      symmetry. apply Z.gtb_lt. lia.
    + intros (w' & H). now destruct (Raised w' H) as (_ & Hgt & _).
  - intros Hae w' H. destruct (Raised w' H) as (Hae' & _). congruence.
  - intros w' H. now destruct (Raised w' H) as (_ & _ & Hm & Ht).
Qed.

End WidthCheck.

(** C4 on the reference backend: feature count 10, hidden widths
    [20, 15], autoencoder enabled. *)
Lemma fit_neurons_check_witness :
  (use_ae (hp (self Sim.fresh_ae)) = true ->
   ((15 > shape1 Sim.X_1x10)%Z <->
    exists w', fit Sim.X_1x10 Sim.fresh_ae = (inl ValueError_neurons, w')))
  /\
  (use_ae (hp (self Sim.fresh_ae)) = false ->
   forall w', fit Sim.X_1x10 Sim.fresh_ae <> (inl ValueError_neurons, w'))
  /\
  (forall w', fit Sim.X_1x10 Sim.fresh_ae = (inl ValueError_neurons, w') ->
     model_ (self w') = model_ (self Sim.fresh_ae) /\
     exists evs, trace (genv w') = trace (genv Sim.fresh_ae) ++ evs
                 /\ Forall no_build evs).
Proof.
  apply (@fit_neurons_check Sim.backend Sim.X_1x10 Sim.X_1x10
           Sim.fresh_ae 15%Z).
  - split; [reflexivity|]. split.
    + discriminate.
    + intros X_val y_val H. discriminate H.
  - reflexivity.
Defined.

(** ** The center across calls of [fit] *)

Section Center.

Context {B : Backend}.

Lemma build_model_center cc t :
  maintains (fun o => c o = Some cc) (uses_center cc) any_exn
    (_build_model t).
Proof.
  intros w r w' Hc H. unfold _build_model in H. unfold_m. run_in H.
  all: try rewrite Hc in *.
  all: inversion H; subst; cbn;
    (split; [assumption|]); (split; [| intros; exact Logic.I]).
  all: rewrite <- ?app_assoc;
    first [ now exists []; rewrite app_nil_r
          | eexists; split; [reflexivity|] ].
  all: repeat constructor; try discriminate;
    intros net E; inversion E; subst; cbn; congruence.
Qed.

Lemma fit_center_keeps cc Xn :
  maintains (fun o => c o = Some cc) (uses_center cc) any_exn
    (fit_center Xn).
Proof.
  intros w r w' Hc H. rewrite (fit_center_skip Xn w cc Hc) in H.
  inversion H; subst. repeat split; auto.
  now exists []; rewrite app_nil_r.
Qed.

Lemma uses_center_other cc ev :
  is_embed ev = false -> is_build ev = false -> uses_center cc ev.
Proof.
  intros He Hb. split; [exact He|]. intros net ->. discriminate.
Qed.

(** Once [c] is set, a call of [fit] keeps it, makes no embedding pass
    and builds its network around it. *)
Lemma fit_keeps_center cc X :
  maintains (fun o => c o = Some cc) (uses_center cc) any_exn (fit X).
Proof.
  unfold fit.
  apply maintains_bind; [|intros Xv].
  { unfold fit_validate, check_array_. unfold uses_center, any_exn. maint. }
  apply maintains_bind; [|intros Xn].
  { unfold fit_standardize, transform_. unfold uses_center, any_exn. maint. }
  apply maintains_bind; [|intros X'].
  { unfold fit_shuffle. unfold uses_center, any_exn. maint. }
  apply maintains_bind; [|intros _].
  { unfold fit_check_neurons. unfold uses_center, any_exn. maint. }
  apply maintains_bind; [apply fit_center_keeps|intros _].
  apply maintains_bind; [|intros _].
  { unfold fit_train.
    apply maintains_bind; [apply build_model_center | intros ?].
    unfold uses_center, any_exn. maint. }
  unfold fit_score, transform_, predict_. unfold uses_center, any_exn.
  maint.
Qed.

Lemma refit_keeps_center cc w1 w2 :
  refit w1 w2 -> c (self w1) = Some cc ->
  c (self w2) = Some cc /\
  exists evs, trace (genv w2) = trace (genv w1) ++ evs
              /\ Forall (uses_center cc) evs.
Proof.
  induction 1 as [w|w X r w1 w2 Hf _ IH]; intros Hc.
  - split; [exact Hc|]. now exists []; rewrite app_nil_r.
  - destruct (fit_keeps_center cc X w r w1 Hc Hf) as (Hc1 & (e1 & T1 & P1) & _).
    destruct (IH Hc1) as (Hc2 & e2 & T2 & P2).
    split; [exact Hc2|]. exists (e1 ++ e2).
    rewrite T2, T1, app_assoc. split; [reflexivity|].
    now apply Forall_app.
Qed.

(** C9: when [fit] returns on an object whose [c] is [None], [c] holds
    the clamped mean embedding of that call's standardized (and possibly
    shuffled) training data under the placeholder network; after any
    number of further calls of [fit], [c] is still that center, no such
    call made an embedding pass, and every network they built has that
    center. *)
Theorem center_resolved_once (X : matrix) (w w1 : world) :
  c (self w) = None -> fit X w = (inr tt, w1) ->
  exists Xc Xn X' m0,
    check_array X = Some Xc /\ standardized (self w1) Xc Xn /\
    (X' = Xn \/ exists np, X' = fst (np_shuffle np Xn)) /\
    let cc := C_array (clamp_c eps_default (mean_embedding m0 X')) in
    c (self w1) = Some cc /\
    forall w2, refit w1 w2 ->
      c (self w2) = Some cc /\
      exists evs, trace (genv w2) = trace (genv w1) ++ evs
                  /\ Forall (uses_center cc) evs.
Proof.
  intros Hc H.
  destruct (fit_inr _ _ _ H) as (Xc0 & Xn0 & m & h & Hx0 & _ & St0 & _).
  destruct (fit_inr_blocks _ _ _ H)
    as (Xc & val & w1' & Xn & w2 & X' & w3 & w5 & w6
        & H1 & H2 & H3 & H4 & H5 & H6 & H7).
  destruct (prefix_facts _ _ _ _ _ _ _ _ _ H1 H2 H3)
    as (Hx & _ & _ & _ & _ & Hc3 & _).
  destruct (blocks_ready _ _ _ _ _ _ _ _ _ _ _ H1 H2 H3 H5 H6) as (St & _).
  destruct (fit_shuffle_run Xn w2) as (X'' & w3' & E3 & _ & Hsh).
  rewrite H3 in E3. inversion E3; subst X'' w3'. clear E3.
  rewrite Hc in Hc3.
  destruct (fit_center_inr _ _ _ Hc3 H5) as (m0 & Hc5).
  pose proof (train_preserves _ _ _ _ H6) as F6.
  pose proof (score_preserves _ _ _ _ H7) as F7.
  cbn in F6, F7.
  exists Xc, Xn, X', m0.
  split; [exact Hx|]. split.
  { eapply standardized_ext; [| |exact St]; congruence. }
  split.
  { destruct (validation_size (hp (self w2))); [right|left]; eauto. }
  cbv zeta.
  assert (Hc1 : c (self w1) =
                Some (C_array (clamp_c eps_default (mean_embedding m0 X'))))
    by congruence.
  split; [exact Hc1|].
  intros w2' Hr. exact (refit_keeps_center _ _ _ Hr Hc1).
Qed.

End Center.

(** C9 on the reference backend: the default estimator, whose [c] is
    [None], fitted on two samples. *)
Lemma center_resolved_once_witness :
  c (self Sim.fresh) = None /\
  fit Sim.X_2x1 Sim.fresh = (inr tt, Sim.fitted) /\
  exists Xc Xn X' m0,
    Sim.check_array Sim.X_2x1 = Some Xc /\
    standardized (self Sim.fitted) Xc Xn /\
    (X' = Xn \/ exists np, X' = fst (Sim.np_shuffle np Xn)) /\
    let cc :=
      C_array (clamp_c eps_default (@mean_embedding Sim.backend m0 X')) in
    c (self Sim.fitted) = Some cc /\
    forall w2, refit Sim.fitted w2 ->
      c (self w2) = Some cc /\
      exists evs, trace (genv w2) = trace (genv Sim.fitted) ++ evs
                  /\ Forall (uses_center cc) evs.
Proof.
  assert (Hc : c (self Sim.fresh) = None) by reflexivity.
  assert (H : fit Sim.X_2x1 Sim.fresh = (inr tt, Sim.fitted))
    by (unfold Sim.fitted, Sim.after_fit; apply run_eq; reflexivity).
  split; [exact Hc|]. split; [exact H|].
  exact (center_resolved_once Sim.X_2x1 Sim.fresh Sim.fitted Hc H).
Defined.

(** ** The validation set across calls of [fit] *)

Section Validation.

Context {B : Backend}.

(** A returned call leaves in [validation_data] the supplied features as
    validated and prepared by this call. *)
Lemma fit_validation_data X Xv y_val w w' :
  validation_data (self w) = Some (Xv, y_val) ->
  fit X w = (inr tt, w') ->
  exists Xc Xvc Xvn,
    check_array X = Some Xc /\
    check_array Xv = Some Xvc /\
    prepared (self w) Xc Xvc Xvn /\
    validation_data (self w') = Some (Xvn, y_val).
Proof.
  intros Hv H.
  destruct (fit_inr_blocks _ _ _ H)
    as (Xc & val & w1 & Xn & w2 & X' & w3 & w5 & w6
        & H1 & H2 & H3 & H4 & H5 & H6 & H7).
  pose proof (fit_validate_inr _ _ _ _ _ H1) as (Hx & _ & _ & Hval & Hm).
  rewrite Hv in Hm. destruct Hm as (Xvc & Hxv & ->).
  pose proof (validate_preserves_hp _ _ _ _ H1) as Hp1.
  pose proof (fit_standardize_inr _ _ _ _ _ H2) as S2.
  destruct (fit_shuffle_run Xn w2) as (X'' & w3' & E3 & Hs3 & _).
  rewrite H3 in E3. inversion E3; subst X'' w3'. clear E3.
  pose proof (center_preserves _ _ _ _ H5) as F5.
  pose proof (train_preserves _ _ _ _ H6) as F6.
  pose proof (score_preserves _ _ _ _ H7) as F7.
  cbn in F5, F6, F7.
  assert (Hfin : validation_data (self w') = validation_data (self w2))
    by congruence.
  unfold prepared. rewrite <- Hp1.
  destruct (preprocessing (hp (self w1))).
  - destruct S2 as (_ & _ & S2). rewrite Hval in S2.
    destruct S2 as (Xvn & Ht & Hd).
    exists Xc, Xvc, Xvn. clear F5 F6 F7.
    repeat split; auto. now rewrite Hfin.
  - destruct S2 as (_ & ->).
    exists Xc, Xvc, Xvc. clear F5 F6 F7.
    repeat split; auto. now rewrite Hfin.
Qed.

(** C10: [fit] replaces [validation_data] by the supplied features as
    validated and (with preprocessing) standardized by the scaler of
    that call; a second call of [fit] validates and standardizes what
    the first call stored, not the features originally supplied. *)
Theorem fit_overwrites_validation_data
  (X1 X2 Xv : matrix) (y_val : labels) (w w1 w2 : world) :
  validation_data (self w) = Some (Xv, y_val) ->
  fit X1 w = (inr tt, w1) ->
  fit X2 w1 = (inr tt, w2) ->
  exists Xc1 Xvc1 Xvn1 Xc2 Xvc2 Xvn2,
    check_array X1 = Some Xc1 /\
    check_array Xv = Some Xvc1 /\
    prepared (self w) Xc1 Xvc1 Xvn1 /\
    validation_data (self w1) = Some (Xvn1, y_val) /\
    check_array X2 = Some Xc2 /\
    check_array Xvn1 = Some Xvc2 /\
    prepared (self w) Xc2 Xvc2 Xvn2 /\
    validation_data (self w2) = Some (Xvn2, y_val).
Proof.
  intros Hv H1 H2.
  destruct (fit_validation_data _ _ _ _ _ Hv H1)
    as (Xc1 & Xvc1 & Xvn1 & A1 & A2 & A3 & A4).
  destruct (fit_validation_data _ _ _ _ _ A4 H2)
    as (Xc2 & Xvc2 & Xvn2 & B1 & B2 & B3 & B4).
  exists Xc1, Xvc1, Xvn1, Xc2, Xvc2, Xvn2.
  repeat split; auto.
  unfold prepared in *.
  now rewrite <- (fit_preserves_hp X1 _ _ _ H1).
Qed.

(** The constructor seeds TensorFlow only: whatever [random_state] is,
    NumPy's generator is left in the state it was in. *)
Lemma init_keeps_np_state (a : init_args) (g g' : env) r :
  __init__ a g = (r, g') -> np_state g' = np_state g.
Proof.
  unfold __init__, bind, or_raise, check_parameter, set_seed_, emit_env,
    modify, ret, raise.
  destruct (base_init (a_contamination a)); cbn.
  - destruct (a_random_state a); cbn;
      destruct (in_range _ _ _ _ _); cbn; intros H; now inversion H.
  - intros H. now inversion H.
Qed.

(** With a validation fraction, the rows handed to the center estimate
    and to training are the standardized rows as permuted by NumPy's
    generator in its current state. *)
Lemma fit_shuffle_uses_np Xn w f :
  validation_size (hp (self w)) = Some f ->
  fst (fit_shuffle Xn w) = inr (fst (np_shuffle (np_state (genv w)) Xn)).
Proof.
  intros Hf. destruct (fit_shuffle_run Xn w) as (X' & w' & E & _ & Hs).
  rewrite Hf in Hs. now rewrite E, Hs.
Qed.

End Validation.

(** C10 on the reference backend: the validation row [1.0] is stored as
    [0.5] by the first call and as [0.25] by the second. *)
Lemma fit_overwrites_validation_data_witness :
  validation_data (self Sim.fresh_val) = Some ([[Float.one]], [0%Z]) /\
  fit Sim.X_2x1 Sim.fresh_val = (inr tt, Sim.fitted_val) /\
  fit Sim.X_2x1 Sim.fitted_val = (inr tt, Sim.refitted_val) /\
  validation_data (self Sim.fitted_val) = Some ([[Float.half]], [0%Z]) /\
  validation_data (self Sim.refitted_val)
  = Some ([[Float.quarter]], [0%Z]) /\
  exists Xc1 Xvc1 Xvn1 Xc2 Xvc2 Xvn2,
    Sim.check_array Sim.X_2x1 = Some Xc1 /\
    Sim.check_array [[Float.one]] = Some Xvc1 /\
    prepared (self Sim.fresh_val) Xc1 Xvc1 Xvn1 /\
    validation_data (self Sim.fitted_val) = Some (Xvn1, [0%Z]) /\
    Sim.check_array Sim.X_2x1 = Some Xc2 /\
    Sim.check_array Xvn1 = Some Xvc2 /\
    prepared (self Sim.fresh_val) Xc2 Xvc2 Xvn2 /\
    validation_data (self Sim.refitted_val) = Some (Xvn2, [0%Z]).
Proof.
  assert (Hv : validation_data (self Sim.fresh_val)
               = Some ([[Float.one]], [0%Z])) by reflexivity.
  assert (H1 : fit Sim.X_2x1 Sim.fresh_val = (inr tt, Sim.fitted_val))
    by (unfold Sim.fitted_val, Sim.after_fit; apply run_eq; reflexivity).
  assert (H2 : fit Sim.X_2x1 Sim.fitted_val = (inr tt, Sim.refitted_val))
    by (unfold Sim.refitted_val, Sim.after_fit; apply run_eq; reflexivity).
  repeat (split; [first [assumption | reflexivity]|]).
  exact (fit_overwrites_validation_data Sim.X_2x1 Sim.X_2x1 [[Float.one]]
           [0%Z] Sim.fresh_val Sim.fitted_val Sim.refitted_val Hv H1 H2).
Defined.

(** C8 at a failing input: two runs with [random_state=42] on the same
    two samples, one after the other in one process.  Both objects have
    the same hyperparameters and both constructors leave TensorFlow's
    seed at 42, but the second run draws its shuffle from the NumPy
    generator where the first run left it, trains on the rows in another
    order, and ends with other scores. *)
Theorem seeded_runs_differ :
  random_state (hp (self Sim.seeded1)) = Some 42%Z /\
  random_state (hp (self Sim.seeded2)) = Some 42%Z /\
  tf_state (genv Sim.seeded1) = 42%Z /\
  tf_state (genv Sim.seeded2) = 42%Z /\
  np_state (genv Sim.seeded1) = 0%nat /\
  np_state (genv Sim.seeded2) = 1%nat /\
  fst (fit Sim.X_2x1 Sim.seeded1) = inr tt /\
  fst (fit Sim.X_2x1 Sim.seeded2) = inr tt /\
  decision_scores_ (self Sim.run1) = Some [Float.zero; Float.one] /\
  decision_scores_ (self Sim.run2) = Some [Float.one; Float.zero].
Proof. repeat split; reflexivity. Qed.

(** * Further properties of the code *)

(** ** The clamp of [_init_c] *)

Lemma not_signed_is_zero (x : Float.t) :
  Float.is_nan x = false ->
  Float.ltb x Float.zero = false -> Float.gtb x Float.zero = false ->
  Float.is_zero x = true.
Proof.
  destruct x as [s|s| |s m e]; try destruct s; cbv; congruence.
Qed.

Lemma ltb_abs_not_nan (eps x : Float.t) :
  Float.ltb (Float.abs x) eps = true -> Float.is_nan x = false.
Proof. destruct x; [reflexivity | reflexivity | discriminate | reflexivity]. Qed.

Lemma clamp_coord_cases (eps x : Float.t) :
  clamp_coord eps x = Float.opp eps \/
  clamp_coord eps x = eps \/
  (clamp_coord eps x = x /\
   neg_mask eps x = false /\ pos_mask eps x = false).
Proof.
  unfold clamp_coord. destruct (neg_mask eps x) eqn:N; cbv zeta.
  - destruct (pos_mask eps (Float.opp eps)); auto.
  - destruct (pos_mask eps x); auto.
Qed.

Lemma clamp_coord_fixes_bounds (eps : Float.t) :
  clamp_coord eps (Float.opp eps) = Float.opp eps /\
  clamp_coord eps eps = eps.
Proof.
  split; apply clamp_coord_far.
  - now rewrite abs_opp, abs_not_below_self.
  - apply abs_not_below_self.
Qed.

(** X1: clamping twice is clamping once, for every [eps] and every
    center. *)
Theorem clamp_c_idempotent (eps : Float.t) (c : list Float.t) :
  clamp_c eps (clamp_c eps c) = clamp_c eps c.
Proof.
  rewrite !clamp_c_pointwise, map_map. apply map_ext. intros x.
  destruct (clamp_coord_fixes_bounds eps) as (Fn & Fp).
  destruct (clamp_coord_cases eps x) as [H|[H|(H & _)]]; rewrite H; auto.
Qed.

(** X2: after the clamp, a coordinate whose absolute value is below
    [eps] can only be a zero: every other coordinate has been moved to
    [-eps] or [+eps] or was at least [eps] away from zero. *)
Theorem clamp_c_leaves_only_zeros_near_zero (eps : Float.t)
  (c : list Float.t) (y : Float.t) :
  In y (clamp_c eps c) ->
  Float.ltb (Float.abs y) eps = true -> Float.is_zero y = true.
Proof.
  rewrite clamp_c_pointwise. intros Hin. apply in_map_iff in Hin.
  destruct Hin as (x & <- & _).
  destruct (clamp_coord_cases eps x) as [H|[H|(H & N & Q)]]; rewrite H.
  - rewrite abs_opp, abs_not_below_self. discriminate.
  - rewrite abs_not_below_self. discriminate.
  - intros Ha. unfold neg_mask, pos_mask in N, Q. rewrite Ha in N, Q.
    apply not_signed_is_zero; auto. eapply ltb_abs_not_nan; eauto.
Qed.

(** X2 at the center [0.05, 0.0, 1.0] and its second coordinate. *)
Lemma clamp_c_leaves_only_zeros_near_zero_witness :
  In Float.zero (clamp_c eps_default [Float.twentieth; Float.zero; Float.one])
  /\ Float.ltb (Float.abs Float.zero) eps_default = true
  /\ Float.is_zero Float.zero = true.
Proof.
  assert (Hin : In Float.zero
                  (clamp_c eps_default
                     [Float.twentieth; Float.zero; Float.one]))
    by (right; left; reflexivity).
  assert (Hlt : Float.ltb (Float.abs Float.zero) eps_default = true)
    by reflexivity.
  split; [exact Hin|]. split; [exact Hlt|].
  exact (clamp_c_leaves_only_zeros_near_zero eps_default _ _ Hin Hlt).
Defined.

(** ** The network of [_build_model] *)

Lemma dense_units_app (a b : list layer) :
  dense_units (a ++ b) = dense_units a ++ dense_units b.
Proof. unfold dense_units. apply flat_map_app. Qed.

Lemma dropouts_app (a b : list layer) :
  dropouts (a ++ b) = (dropouts a + dropouts b)%nat.
Proof. unfold dropouts. now rewrite filter_app, length_app. Qed.

Lemma layer_names_app (a b : list layer) :
  layer_names (a ++ b) = layer_names a ++ layer_names b.
Proof. unfold layer_names. apply flat_map_app. Qed.

(** A run of hidden layers, each followed by its dropout. *)
Lemma hidden_run (act : string) (l2 rate : Float.t) (hs : list Z) :
  dense_units (flat_map (fun h => [Dense h act l2 None; Dropout rate]) hs)
  = hs /\
  dropouts (flat_map (fun h => [Dense h act l2 None; Dropout rate]) hs)
  = length hs /\
  layer_names (flat_map (fun h => [Dense h act l2 None; Dropout rate]) hs)
  = [].
Proof.
  unfold dense_units, dropouts, layer_names.
  induction hs as [|h hs (IH1 & IH2 & IH3)]; cbn; [easy|].
  now rewrite IH1, IH2, IH3.
Qed.

Lemma removelast_last_cons (h0 : Z) (l : list Z) :
  l <> [] -> removelast l ++ [last (h0 :: l) h0] = l.
Proof.
  intros Hl. destruct l as [|x l]; [easy|].
  change (last (h0 :: x :: l) h0) with (last (x :: l) h0).
  symmetry. now apply app_removelast_last.
Qed.

Section Architecture.

Context {B : Backend}.

(** X3: the encoder that [_build_model] assembles from the hidden
    widths [h0 :: l]: its [Dense] layers have those widths in order,
    except that a single width [h0] gives two layers of [h0] units; its
    last layer is the only named one, ['net_output']; and it has a
    [Dropout] after every layer but the first and the last, so none at
    all for one or two widths. *)
Theorem encoder_layers_shape (p : params) (h0 : Z) (l : list Z) :
  hidden_neurons_ p = h0 :: l ->
  dense_units (encoder_layers p h0)
  = match l with [] => [h0; h0] | _ => h0 :: l end /\
  layer_names (encoder_layers p h0) = ["net_output"%string] /\
  dropouts (encoder_layers p h0) = (length (h0 :: l) - 2)%nat /\
  exists body w,
    encoder_layers p h0
    = body ++ [Dense w (hidden_activation p) (l2_regularizer p)
                 (Some "net_output"%string)].
Proof.
  intros Hh. unfold encoder_layers. rewrite Hh. cbn [tl].
  destruct (hidden_run (hidden_activation p) (l2_regularizer p)
              (dropout_rate p) (removelast l)) as (R1 & R2 & R3).
  change (?a :: ?x ++ ?y) with ((a :: x) ++ y).
  repeat split.
  - rewrite dense_units_app. cbn [dense_units flat_map app].
    fold (dense_units
            (flat_map (fun h => [Dense h (hidden_activation p)
                                   (l2_regularizer p) None;
                                 Dropout (dropout_rate p)])
               (removelast l))).
    rewrite R1. destruct l as [|x l']; [reflexivity|].
    cbn [app]. f_equal. now apply removelast_last_cons.
  - rewrite layer_names_app. cbn [layer_names flat_map app].
    fold (layer_names
            (flat_map (fun h => [Dense h (hidden_activation p)
                                   (l2_regularizer p) None;
                                 Dropout (dropout_rate p)])
               (removelast l))).
    now rewrite R3.
  - rewrite dropouts_app. unfold dropouts at 1 2. cbn [filter length].
    fold (dropouts
            (flat_map (fun h => [Dense h (hidden_activation p)
                                   (l2_regularizer p) None;
                                 Dropout (dropout_rate p)])
               (removelast l))).
    rewrite R2. destruct l as [|x l']; [reflexivity|].
    assert (Hl : length (removelast (x :: l') ++ [last (x :: l') 0%Z])
                 = length (x :: l'))
      by (rewrite <- app_removelast_last; [reflexivity | discriminate]).
    rewrite length_app in Hl. cbn [length] in *. lia.
  - eexists. eexists. reflexivity.
Qed.

(** X4: the decoder that [_build_model] adds with [use_ae]: its [Dense]
    widths are the hidden widths in reverse followed by the feature
    count, so the reconstruction has the width of the input; every
    layer but the last is followed by a [Dropout]. *)
Theorem decoder_layers_shape (p : params) (n_features : Z) :
  dense_units (decoder_layers p n_features)
  = rev (hidden_neurons_ p) ++ [n_features] /\
  dropouts (decoder_layers p n_features) = length (hidden_neurons_ p) /\
  exists body,
    decoder_layers p n_features
    = body ++ [Dense n_features (output_activation p) (l2_regularizer p)
                 None].
Proof.
  unfold decoder_layers.
  destruct (hidden_run (hidden_activation p) (l2_regularizer p)
              (dropout_rate p) (rev (hidden_neurons_ p))) as (R1 & R2 & _).
  repeat split.
  - rewrite dense_units_app, R1. reflexivity.
  - rewrite dropouts_app, R2, length_rev. cbn. lia.
  - eexists. reflexivity.
Qed.

End Architecture.

(** X3 on the default hidden widths [64, 32]. *)
Lemma encoder_layers_shape_witness :
  dense_units (encoder_layers (hp (self Sim.fresh)) 64) = [64; 32]%Z /\
  layer_names (encoder_layers (hp (self Sim.fresh)) 64)
  = ["net_output"%string] /\
  dropouts (encoder_layers (hp (self Sim.fresh)) 64) = 0%nat /\
  exists body w,
    encoder_layers (hp (self Sim.fresh)) 64
    = body ++ [Dense w (hidden_activation (hp (self Sim.fresh)))
                 (l2_regularizer (hp (self Sim.fresh)))
                 (Some "net_output"%string)].
Proof.
  exact (encoder_layers_shape (hp (self Sim.fresh)) 64 [32%Z] eq_refl).
Defined.

(** ** The two builds of [fit] *)

Section Builds.

Context {B : Backend}.

Lemma filter_no_build evs :
  Forall no_build evs -> filter is_build evs = [].
Proof.
  induction 1 as [|ev evs Hev _ IH]; [reflexivity|].
  cbn. unfold no_build in Hev. now rewrite Hev.
Qed.

Lemma score_no_build X :
  maintains always no_build any_exn (fit_score X).
Proof. unfold_blocks. unfold always, no_build, any_exn. maint. Qed.

(** The center estimate builds one network, around the placeholder
    center [0.0]. *)
Lemma fit_center_builds Xn w w' :
  c (self w) = None -> fit_center Xn w = (inr tt, w') ->
  exists net evs,
    trace (genv w') = trace (genv w) ++ evs /\
    filter is_build evs = [Ev_build net] /\
    net_center net = C_scalar Float.zero.
Proof.
  intros Hc H. unfold fit_center, _init_c, mask_assign_c, _build_model in H.
  unfold_m. run_in H.
  all: inversion H; subst; cbn; rewrite <- ?app_assoc;
    eexists; eexists; (split; [reflexivity|]); cbn; split; reflexivity.
Qed.

(** Training builds one network, around the center of the object. *)
Lemma fit_train_builds Xn w w' :
  fit_train Xn w = (inr tt, w') ->
  exists net evs,
    trace (genv w') = trace (genv w) ++ evs /\
    filter is_build evs = [Ev_build net] /\
    Some (net_center net) = c (self w).
Proof.
  intros H. unfold fit_train, _build_model in H. unfold_m. run_in H.
  all: inversion H; subst; cbn; rewrite <- ?app_assoc;
    eexists; eexists; (split; [reflexivity|]); cbn; split;
    first [reflexivity | congruence].
Qed.

(** X5: a call of [fit] that returns has built exactly two networks when
    [c] was [None] - the first around the placeholder center [0.0], the
    second around the center it resolved - and exactly one, around the
    given center, when [c] was set. *)
Theorem fit_builds (X : matrix) (w w' : world) :
  fit X w = (inr tt, w') ->
  exists evs, trace (genv w') = trace (genv w) ++ evs /\
    match c (self w) with
    | None =>
        exists net0 net1,
          filter is_build evs = [Ev_build net0; Ev_build net1] /\
          net_center net0 = C_scalar Float.zero /\
          Some (net_center net1) = c (self w')
    | Some cc =>
        exists net,
          filter is_build evs = [Ev_build net] /\ net_center net = cc /\
          c (self w') = Some cc
    end.
Proof.
  intros H.
  destruct (fit_inr_blocks _ _ _ H)
    as (Xc & val & w1 & Xn & w2 & X' & w3 & w5 & w6
        & H1 & H2 & H3 & H4 & H5 & H6 & H7).
  destruct (prefix_facts _ _ _ _ _ _ _ _ _ H1 H2 H3)
    as (_ & _ & _ & _ & _ & Hc3 & _ & e3 & T3 & P3).
  destruct (fit_train_builds _ _ _ H6) as (net1 & e6 & T6 & F6 & C6).
  destruct (score_no_build Xc w6 _ _ Logic.I H7) as (_ & (e7 & T7 & P7) & _).
  pose proof (train_preserves _ _ _ _ H6) as G6.
  pose proof (score_preserves _ _ _ _ H7) as G7. cbn in G6, G7.
  assert (Hc' : c (self w') = c (self w5)) by congruence.
  clear G6 G7.
  destruct (c (self w)) as [cc|] eqn:Hc.
  - rewrite (fit_center_skip X' w3 cc Hc3) in H5.
    inversion H5; subst w5.
    exists (e3 ++ e6 ++ e7). split.
    { rewrite T7, T6, T3, <- !app_assoc. reflexivity. }
    exists net1. rewrite !filter_app, (filter_no_build _ P3),
      (filter_no_build _ P7), F6, app_nil_r. cbn.
    repeat split; congruence.
  - destruct (fit_center_builds _ _ _ Hc3 H5) as (net0 & e5 & T5 & F5 & C5).
    exists (e3 ++ e5 ++ e6 ++ e7). split.
    { rewrite T7, T6, T5, T3, <- !app_assoc. reflexivity. }
    exists net0, net1. rewrite !filter_app, (filter_no_build _ P3),
      (filter_no_build _ P7), F5, F6, app_nil_r. cbn.
    repeat split; congruence.
Qed.

End Builds.

(** X5 on the reference backend: the default estimator, two builds. *)
Lemma fit_builds_witness :
  fit Sim.X_2x1 Sim.fresh = (inr tt, Sim.fitted) /\
  exists evs, trace (genv Sim.fitted) = trace (genv Sim.fresh) ++ evs /\
    match c (self Sim.fresh) with
    | None =>
        exists net0 net1,
          filter is_build evs = [Ev_build net0; Ev_build net1] /\
          net_center net0 = C_scalar Float.zero /\
          Some (net_center net1) = c (self Sim.fitted)
    | Some cc =>
        exists net,
          filter is_build evs = [Ev_build net] /\ net_center net = cc /\
          c (self Sim.fitted) = Some cc
    end.
Proof.
  assert (H : fit Sim.X_2x1 Sim.fresh = (inr tt, Sim.fitted))
    by (unfold Sim.fitted, Sim.after_fit; apply run_eq; reflexivity).
  split; [exact H|].
  exact (fit_builds Sim.X_2x1 Sim.fresh Sim.fitted H).
Defined.

(** ** Scoring *)

Section Scoring.

Context {B : Backend}.

(** The outcome of [decision_function] depends on the object only, not
    on the generators or the trace. *)
Lemma decision_function_reads_self X w1 w2 :
  self w1 = self w2 ->
  fst (decision_function X w1) = fst (decision_function X w2).
Proof.
  destruct w1 as [o1 g1], w2 as [o2 g2]. cbn. intros <-.
  unfold decision_function, check_is_fitted. unfold_m.
  repeat (cbn;
          match goal with
          | |- context [match ?d with _ => _ end] =>
              lazymatch d with
              | context [match _ with _ => _ end] => fail
              | _ => destruct d
              end
          end); reflexivity.
Qed.

(** X6: [decision_function] leaves the object exactly as it was, on
    every input and whether it returns or raises; called again on the
    same input it gives the same outcome. *)
Theorem decision_function_repeatable (X : matrix) (w w1 : world)
  (r : exn + list Float.t) :
  decision_function X w = (r, w1) ->
  self w1 = self w /\ fst (decision_function X w1) = r.
Proof.
  intros H.
  assert (Hs : self w1 = self w)
    by exact (decision_function_preserves (fun o => o) X w r w1 H).
  split; [exact Hs|].
  rewrite (decision_function_reads_self X w1 w Hs), H. reflexivity.
Qed.

(** X7: when [decision_function] returns, it returns one score per row
    of the validated input. *)
Theorem decision_function_one_score_per_row (X : matrix) (w w' : world)
  (ds : list Float.t) :
  decision_function X w = (inr ds, w') ->
  exists Xc, check_array X = Some Xc /\ length ds = length Xc.
Proof.
  intros H. unfold decision_function, check_is_fitted in H. unfold_m.
  run_in H.
  all: inversion H; subst; eexists; (split; [reflexivity|]);
    rewrite length_map; try reflexivity.
  all: eapply traverse_length; eassumption.
Qed.

(** X8: a call of [fit] that returns with preprocessing leaves in
    [scaler_] the scaler fitted on the validated training data of this
    very call, whatever scaler the object held before. *)
Theorem fit_refits_scaler (X : matrix) (w w' : world) :
  fit X w = (inr tt, w') ->
  preprocessing (hp (self w)) = true ->
  exists Xc, check_array X = Some Xc /\
             scaler_ (self w') = Some (scaler_fit Xc).
Proof.
  intros H Hp.
  destruct (fit_inr_blocks _ _ _ H)
    as (Xc & val & w1 & Xn & w2 & X' & w3 & w5 & w6
        & H1 & H2 & H3 & H4 & H5 & H6 & H7).
  destruct (prefix_facts _ _ _ _ _ _ _ _ _ H1 H2 H3)
    as (Hx & _ & _ & _ & Hsc & _).
  pose proof (center_preserves _ _ _ _ H5) as F5.
  pose proof (train_preserves _ _ _ _ H6) as F6.
  pose proof (score_preserves _ _ _ _ H7) as F7. cbn in F5, F6, F7.
  exists Xc. split; [exact Hx|]. rewrite <- (Hsc Hp). congruence.
Qed.

End Scoring.

(** X6 on the reference backend: scoring the fitted default estimator. *)
Lemma decision_function_repeatable_witness :
  self (snd (decision_function Sim.X_2x1 Sim.fitted)) = self Sim.fitted /\
  fst (decision_function Sim.X_2x1
         (snd (decision_function Sim.X_2x1 Sim.fitted)))
  = fst (decision_function Sim.X_2x1 Sim.fitted).
Proof.
  exact (decision_function_repeatable Sim.X_2x1 Sim.fitted _ _
           (run_eq (decision_function Sim.X_2x1) Sim.fitted _ eq_refl)).
Defined.

(** X7 on the reference backend. *)
Lemma decision_function_one_score_per_row_witness :
  exists Xc,
    Sim.check_array Sim.X_2x1 = Some Xc /\
    length [Float.one; Float.zero] = length Xc.
Proof.
  apply (decision_function_one_score_per_row Sim.X_2x1 Sim.fitted
           (snd (decision_function Sim.X_2x1 Sim.fitted))).
  apply run_eq. reflexivity.
Defined.

(** X8 on the reference backend. *)
Lemma fit_refits_scaler_witness :
  exists Xc, Sim.check_array Sim.X_2x1 = Some Xc /\
             scaler_ (self Sim.fitted) = Some (length (hd [] Xc)).
Proof.
  apply (fit_refits_scaler Sim.X_2x1 Sim.fresh Sim.fitted).
  - unfold Sim.fitted, Sim.after_fit. apply run_eq. reflexivity.
  - reflexivity.
Defined.

(** ** The constructor and the generators *)

Section Generators.

Context {B : Backend}.

(** X9: the constructor never touches NumPy's generator, and sets
    TensorFlow's seed exactly when [random_state] is given (and the
    parent class accepted the contamination, which is checked first). *)
Theorem init_generators (a : init_args) (g : env) :
  np_state (snd (__init__ a g)) = np_state g /\
  tf_state (snd (__init__ a g))
  = match base_init (a_contamination a), a_random_state a with
    | Some _, Some seed => tf_set_seed seed
    | _, _ => tf_state g
    end.
Proof.
  unfold __init__, bind, or_raise, check_parameter, set_seed_, emit_env,
    modify, ret, raise.
  destruct (base_init (a_contamination a)); cbn; [|easy].
  destruct (a_random_state a); cbn;
    destruct (in_range _ _ _ _ _); cbn; easy.
Qed.

(** The object a successful construction returns. *)
Lemma construct_inr (a : init_args) (g : env) (w : world) :
  construct a g = inr w ->
  use_ae (hp (self w)) = a_use_ae a /\
  hidden_neurons (hp (self w))
  = match a_hidden_neurons a with Some l => l | None => [64; 32]%Z end /\
  validation_size (hp (self w))
  = match a_validation_data a with
    | Some _ => None
    | None => a_validation_size a
    end /\
  c (self w) = a_c a.
Proof.
  unfold construct.
  destruct (__init__ a g) as [[e|o] g'] eqn:Hi; [discriminate|].
  intros H. inversion H; subst. cbn. revert Hi.
  unfold __init__, bind, or_raise, check_parameter.
  destruct (base_init (a_contamination a)); [|discriminate].
  cbn. destruct (a_random_state a); cbn;
    destruct (in_range _ _ _ _ _); cbn; intros Hi; inversion Hi; subst;
    cbn; auto.
Qed.

Lemma fit_shuffle_none Xn w :
  validation_size (hp (self w)) = None -> fit_shuffle Xn w = (inr Xn, w).
Proof.
  intros Hv. unfold fit_shuffle. unfold_m. cbn. now rewrite Hv.
Qed.

Lemma fit_never_shuffles X :
  maintains (fun o => validation_size (hp o) = None) not_shuffle any_exn
    (fit X).
Proof.
  unfold fit.
  apply maintains_bind; [|intros Xv].
  { unfold fit_validate, check_array_. unfold not_shuffle, any_exn. maint. }
  apply maintains_bind; [|intros Xn].
  { unfold fit_standardize, transform_. unfold not_shuffle, any_exn. maint. }
  apply maintains_bind; [|intros X'].
  { intros w r w' Hv H. rewrite (fit_shuffle_none Xn w Hv) in H.
    inversion H; subst. repeat split; auto.
    now exists []; rewrite app_nil_r. }
  apply maintains_bind; [|intros _].
  { unfold fit_check_neurons. unfold not_shuffle, any_exn. maint. }
  apply maintains_bind; [|intros _].
  { unfold fit_center, _build_model, _init_c, mask_assign_c.
    unfold not_shuffle, any_exn. maint. }
  apply maintains_bind; [|intros _].
  { unfold fit_train, _build_model. unfold not_shuffle, any_exn. maint. }
  unfold fit_score, transform_, predict_. unfold not_shuffle, any_exn.
  maint.
Qed.

(** X10: an estimator constructed with a validation set never shuffles:
    no call of [fit] on it calls [np.random.shuffle], whether the call
    returns or raises, so training sees the rows in the caller's
    order. *)
Theorem fit_with_validation_set_never_shuffles
  (a : init_args) (g : env) (w w' : world) (vd : matrix * labels)
  (X : matrix) (r : exn + unit) :
  construct a g = inr w -> a_validation_data a = Some vd ->
  fit X w = (r, w') ->
  exists evs, trace (genv w') = trace (genv w) ++ evs /\
              Forall not_shuffle evs.
Proof.
  intros Hc Hv H.
  destruct (construct_inr a g w Hc) as (_ & _ & Hs & _).
  rewrite Hv in Hs.
  now destruct (fit_never_shuffles X w r w' Hs H) as (_ & Ht & _).
Qed.

End Generators.

(** X10 on the reference backend. *)
Lemma fit_with_validation_set_never_shuffles_witness :
  exists evs,
    trace (genv Sim.fitted_val) = trace (genv Sim.fresh_val) ++ evs /\
    Forall not_shuffle evs.
Proof.
  apply (@fit_with_validation_set_never_shuffles Sim.backend
           Sim.args_val (Sim.env0 0) Sim.fresh_val Sim.fitted_val
           ([[Float.one]], [0%Z]) Sim.X_2x1 (inr tt)).
  - reflexivity.
  - reflexivity.
  - unfold Sim.fitted_val, Sim.after_fit. apply run_eq. reflexivity.
Defined.

(** ** The width check on particular configurations *)

Section Widths.

Context {B : Backend}.

(** An accepted input is judged by the width check alone. *)
Lemma accepted_check_outcome X Xc w :
  accepted (self w) X Xc ->
  exists w3,
    hp (self w3) = hp (self w) /\
    n_features_ (self w3) = Some (shape1 Xc) /\
    model_ (self w3) = model_ (self w) /\
    forall e, fit_check_neurons w3 = (inl e, w3) ->
              fit X w = (inl e, w3).
Proof.
  intros Hacc.
  destruct (accepted_reaches_check _ _ _ Hacc)
    as (val & w1 & Xn & w2 & X' & w3 & H1 & H2 & H3).
  destruct (prefix_facts _ _ _ _ _ _ _ _ _ H1 H2 H3)
    as (_ & Hp & _ & Hnf & _ & _ & Hm & _).
  exists w3. repeat split; auto.
  intros e He. unfold fit.
  rewrite (bind_run _ _ _ _ _ H1). cbn [fst snd].
  rewrite (bind_run _ _ _ _ _ H2), (bind_run _ _ _ _ _ H3).
  now apply bind_raise.
Qed.

(** X11: with an empty list of hidden widths, [fit] on an accepted input
    raises the error of [np.min] on an empty sequence - with or without
    [use_ae] - and [model_] is as before the call. *)
Theorem fit_empty_hidden_neurons (X Xc : matrix) (w : world) :
  accepted (self w) X Xc ->
  hidden_neurons (hp (self w)) = [] ->
  exists w', fit X w = (inl ValueError_np_min, w') /\
             model_ (self w') = model_ (self w).
Proof.
  intros Hacc Hh.
  destruct (accepted_check_outcome X Xc w Hacc) as (w3 & Hp & _ & Hm & Hf).
  exists w3. split; [|exact Hm]. apply Hf.
  unfold fit_check_neurons. unfold_m. cbn. rewrite Hp, Hh. reflexivity.
Qed.

(** X12: an autoencoder constructed without [hidden_neurons] has the
    widths [64, 32], so [fit] raises the width error on every accepted
    input with fewer than 32 features. *)
Theorem fit_default_autoencoder_needs_32_features
  (a : init_args) (g : env) (w : world) (X Xc : matrix) :
  construct a g = inr w ->
  a_hidden_neurons a = None -> a_use_ae a = true ->
  accepted (self w) X Xc -> (shape1 Xc < 32)%Z ->
  exists w', fit X w = (inl ValueError_neurons, w').
Proof.
  intros Hc Hn Hae Hacc Hlt.
  destruct (construct_inr a g w Hc) as (Hu & Hh & _).
  rewrite Hn in Hh. rewrite Hae in Hu.
  destruct (accepted_check_outcome X Xc w Hacc) as (w3 & Hp & Hnf & _ & Hf).
  exists w3. apply Hf.
  rewrite (fit_check_neurons_run w3 (shape1 Xc) 32%Z Hnf);
    [|now rewrite Hp, Hh].
  rewrite Hp, Hu.
  replace (32 >? shape1 Xc)%Z with true; [reflexivity|].
  symmetry. apply Z.gtb_lt. lia.
Qed.

End Widths.

(** X11 on the reference backend: the default estimator with the hidden
    widths emptied. *)
Lemma fit_empty_hidden_neurons_witness :
  exists w',
    fit Sim.X_2x1 Sim.fresh_empty = (inl ValueError_np_min, w') /\
    model_ (self w') = model_ (self Sim.fresh_empty).
Proof.
  apply (@fit_empty_hidden_neurons Sim.backend Sim.X_2x1 Sim.X_2x1
           Sim.fresh_empty).
  - split; [reflexivity|]. split.
    + discriminate.
    + intros X_val y_val H. discriminate H.
  - reflexivity.
Defined.

(** X12 on the reference backend: the default autoencoder on ten
    features. *)
Lemma fit_default_autoencoder_needs_32_features_witness :
  exists w', fit Sim.X_1x10 Sim.fresh_default_ae
             = (inl ValueError_neurons, w').
Proof.
  apply (@fit_default_autoencoder_needs_32_features Sim.backend
           Sim.args_default_ae (Sim.env0 0) Sim.fresh_default_ae
           Sim.X_1x10 Sim.X_1x10).
  - reflexivity.
  - reflexivity.
  - reflexivity.
  - split; [reflexivity|]. split.
    + discriminate.
    + intros X_val y_val H. discriminate H.
  - reflexivity.
Defined.

(** ** Without preprocessing *)

Section NoScaler.

Context {B : Backend}.

(** A value read from the object is known to the rest of the
    computation, as long as nothing changes it. *)
Lemma maintains_read {A C} (I : DeepSVDD -> Prop) P E
  (f : DeepSVDD -> A) (k : A -> M world C) :
  (forall a, maintains (fun o => I o /\ f o = a) P E (k a)) ->
  maintains I P E (bind (field f) k).
Proof.
  intros Hk w r w' HI H. unfold bind, field, gets in H. cbn in H.
  destruct (Hk (f (self w)) w r w' (conj HI eq_refl) H) as ((HI' & _) & R).
  split; auto.
Qed.

Lemma maintains_absurd {A} (I : DeepSVDD -> Prop) P E (m : M world A) :
  (forall o, I o -> False) -> maintains I P E m.
Proof. intros Hn w r w' HI. now destruct (Hn _ HI). Qed.

Lemma standardize_raw s X val :
  maintains (raw s) not_scaler any_exn (fit_standardize X val).
Proof.
  unfold fit_standardize. apply maintains_read. intros p.
  destruct (preprocessing p) eqn:Ep.
  - apply maintains_absurd. unfold raw. intros o [[Hi _] He]. congruence.
  - apply maintains_ret.
Qed.

Lemma score_raw s X :
  maintains (raw s) not_scaler any_exn (fit_score X).
Proof.
  unfold fit_score. apply maintains_read. intros p.
  destruct (preprocessing p) eqn:Ep.
  - apply maintains_absurd. unfold raw. intros o [[Hi _] He]. congruence.
  - unfold predict_, raw, not_scaler, any_exn. maint.
Qed.

Lemma fit_raw s X : maintains (raw s) not_scaler any_exn (fit X).
Proof.
  unfold fit.
  apply maintains_bind; [|intros Xv].
  { unfold fit_validate, check_array_. unfold raw, not_scaler, any_exn.
    maint. }
  apply maintains_bind; [apply standardize_raw|intros Xn].
  apply maintains_bind; [|intros X'].
  { unfold fit_shuffle. unfold raw, not_scaler, any_exn. maint. }
  apply maintains_bind; [|intros _].
  { unfold fit_check_neurons. unfold raw, not_scaler, any_exn. maint. }
  apply maintains_bind; [|intros _].
  { unfold fit_center, _build_model, _init_c, mask_assign_c.
    unfold raw, not_scaler, any_exn. maint. }
  apply maintains_bind; [|intros _].
  { unfold fit_train, _build_model. unfold raw, not_scaler, any_exn. maint. }
  apply score_raw.
Qed.

(** X13: without preprocessing, a call of [fit] makes no call to the
    scaler and leaves [scaler_] as it was, whether it returns or
    raises; when it returns, the scores are the model's outputs on the
    validated rows themselves. *)
Theorem fit_without_preprocessing (X : matrix) (w w' : world)
  (r : exn + unit) :
  preprocessing (hp (self w)) = false ->
  fit X w = (r, w') ->
  scaler_ (self w') = scaler_ (self w) /\
  (exists evs, trace (genv w') = trace (genv w) ++ evs
               /\ Forall not_scaler evs) /\
  (r = inr tt ->
   exists Xc m, check_array X = Some Xc /\ model_ (self w') = Some m /\
     decision_scores_ (self w') = Some (map (keras_forward m) Xc)).
Proof.
  intros Hp H.
  destruct (fit_raw (scaler_ (self w)) X w r w' (conj Hp eq_refl) H)
    as ((Hp' & Hs) & Ht & _).
  split; [exact Hs|]. split; [exact Ht|].
  intros ->.
  destruct (fit_inr _ _ _ H)
    as (Xc & Xn & m & h & Hx & _ & St & Hm & _ & Hd & _).
  unfold standardized in St. rewrite Hp' in St. subst Xn.
  exists Xc, m. auto.
Qed.

End NoScaler.

(** X13 on the reference backend: the default estimator with
    [preprocessing=False]. *)
Lemma fit_without_preprocessing_witness :
  scaler_ (self Sim.fitted_raw) = scaler_ (self Sim.fresh_raw) /\
  (exists evs,
     trace (genv Sim.fitted_raw) = trace (genv Sim.fresh_raw) ++ evs
     /\ Forall not_scaler evs) /\
  (@inr exn unit tt = inr tt ->
   exists Xc m,
     Sim.check_array Sim.X_2x1 = Some Xc /\
     model_ (self Sim.fitted_raw) = Some m /\
     decision_scores_ (self Sim.fitted_raw)
     = Some (map (Sim.forward m) Xc)).
Proof.
  apply (@fit_without_preprocessing Sim.backend Sim.X_2x1 Sim.fresh_raw
           Sim.fitted_raw (inr tt)).
  - reflexivity.
  - unfold Sim.fitted_raw, Sim.after_fit. apply run_eq. reflexivity.
Defined.

(** ** Which rows go where *)

Section Rows.

Context {B : Backend}.

Lemma fit_center_embeds Xn w w' :
  c (self w) = None -> fit_center Xn w = (inr tt, w') ->
  exists evs, trace (genv w') = trace (genv w) ++ evs /\
              In (Ev_embed Xn) evs.
Proof.
  intros Hc H. unfold fit_center, _init_c, mask_assign_c, _build_model in H.
  unfold_m. run_in H.
  all: inversion H; subst; cbn; rewrite <- ?app_assoc;
    eexists; (split; [reflexivity|]); cbn; tauto.
Qed.

Lemma fit_train_trains Xn w w' :
  fit_train Xn w = (inr tt, w') ->
  exists evs, trace (genv w') = trace (genv w) ++ evs /\
              In (Ev_train Xn) evs.
Proof.
  intros H. unfold fit_train, _build_model in H. unfold_m. run_in H.
  all: inversion H; subst; cbn; rewrite <- ?app_assoc;
    eexists; (split; [reflexivity|]); cbn; tauto.
Qed.

Lemma fit_score_predicts Xc w w' :
  fit_score Xc w = (inr tt, w') ->
  exists Xn evs,
    standardized (self w) Xc Xn /\
    trace (genv w') = trace (genv w) ++ evs /\ In (Ev_predict Xn) evs.
Proof.
  intros H. unfold fit_score in H. unfold_m. unfold standardized.
  run_in H.
  all: inversion H; subst; cbn; rewrite <- ?app_assoc.
  - exists l. eexists. split; [eauto|]. split; [reflexivity|]. cbn. tauto.
  - exists Xc. eexists. split; [reflexivity|]. split; [reflexivity|].
    cbn. tauto.
Qed.

(** X14: in a call of [fit] that returns on an object without center,
    the center is estimated on exactly the array that training receives
    - the standardized rows, permuted by NumPy's generator when a
    validation fraction is set - while the scores are predicted on the
    standardized rows in their original order. *)
Theorem fit_rows (X : matrix) (w w' : world) :
  c (self w) = None -> fit X w = (inr tt, w') ->
  exists Xc Xn X' evs,
    check_array X = Some Xc /\ standardized (self w') Xc Xn /\
    match validation_size (hp (self w)) with
    | Some _ => exists np, X' = fst (np_shuffle np Xn)
    | None => X' = Xn
    end /\
    trace (genv w') = trace (genv w) ++ evs /\
    In (Ev_embed X') evs /\ In (Ev_train X') evs /\
    In (Ev_predict Xn) evs.
Proof.
  intros Hc H.
  destruct (fit_inr_blocks _ _ _ H)
    as (Xc & val & w1 & Xn & w2 & X' & w3 & w5 & w6
        & H1 & H2 & H3 & H4 & H5 & H6 & H7).
  destruct (prefix_facts _ _ _ _ _ _ _ _ _ H1 H2 H3)
    as (Hx & Hp3 & _ & _ & _ & Hc3 & _ & e3 & T3 & _).
  destruct (blocks_ready _ _ _ _ _ _ _ _ _ _ _ H1 H2 H3 H5 H6) as (St & _).
  destruct (fit_shuffle_run Xn w2) as (X'' & w3' & E3 & Hs3 & Hsh).
  rewrite H3 in E3. inversion E3; subst X'' w3'. clear E3.
  rewrite Hc in Hc3.
  destruct (fit_center_embeds _ _ _ Hc3 H5) as (e5 & T5 & I5).
  destruct (fit_train_trains _ _ _ H6) as (e6 & T6 & I6).
  destruct (fit_score_predicts _ _ _ H7) as (Xn' & e7 & St' & T7 & I7).
  assert (Xn' = Xn).
  { unfold standardized in St, St'.
    destruct (preprocessing (hp (self w6))).
    - destruct St as (sc & A1 & A2), St' as (sc' & A1' & A2'). congruence.
    - congruence. }
  subst Xn'.
  pose proof (score_preserves _ _ _ _ H7) as F7. cbn in F7.
  pose proof (standardize_preserves _ _ _ _ _ H2) as F2. cbn in F2.
  pose proof (validate_preserves_hp _ _ _ _ H1) as F1.
  exists Xc, Xn, X', (e3 ++ e5 ++ e6 ++ e7).
  split; [exact Hx|]. split.
  { eapply standardized_ext; [| |exact St]; congruence. }
  split.
  { assert (Hhp : hp (self w2) = hp (self w)) by congruence.
    rewrite Hhp in Hsh.
    destruct (validation_size (hp (self w))); eauto. }
  split.
  { rewrite T7, T6, T5, T3, <- !app_assoc. reflexivity. }
  rewrite !in_app_iff. tauto.
Qed.

End Rows.

(** X14 on the reference backend. *)
Lemma fit_rows_witness :
  exists Xc Xn X' evs,
    Sim.check_array Sim.X_2x1 = Some Xc /\
    standardized (self Sim.fitted) Xc Xn /\
    match validation_size (hp (self Sim.fresh)) with
    | Some _ => exists np, X' = fst (Sim.np_shuffle np Xn)
    | None => X' = Xn
    end /\
    trace (genv Sim.fitted) = trace (genv Sim.fresh) ++ evs /\
    In (Ev_embed X') evs /\ In (Ev_train X') evs /\
    In (Ev_predict Xn) evs.
Proof.
  apply (@fit_rows Sim.backend Sim.X_2x1 Sim.fresh Sim.fitted).
  - reflexivity.
  - unfold Sim.fitted, Sim.after_fit. apply run_eq. reflexivity.
Defined.
